(** * Research paper podcast pipeline: a shallow embedding of [main.py] and
    [api.py] and the properties of their specification.

    Python values are modelled as the code uses them.  A [str] is a
    [string] whose characters are the code points below 256; lists are
    [list]; the fixed-key dictionaries the orchestrator builds are records;
    parsed JSON is the type [pyval].  Calls that leave the program (the PDF
    reader, the HTTP client, the HTML parser, the summarisation model, the
    text-to-speech engine) are answered by an environment that may look at
    everything that happened before; each call is recorded, with its
    outcome, in the history the computation threads.  What the program
    prints is left out, paths are POSIX paths, and [run_system] is given
    lists of strings, as its callers in the command line and the form
    interface build them. *)

From Stdlib Require Import String Ascii List ZArith Lia Bool Arith DecimalString.
Import ListNotations.

Local Open Scope string_scope.
Local Open Scope list_scope.
Local Open Scope nat_scope.

(* ------------------------------------------------------------------ *)
(** ** Python string operations *)
(* ------------------------------------------------------------------ *)

Module PyStr.

(** [str.isspace] on one code point below 256: TAB..CR, FS..US, SPACE,
    NEL and NBSP. *)
Definition is_space (c : ascii) : bool :=
  let n := nat_of_ascii c in
  ((9 <=? n) && (n <=? 13)) || ((28 <=? n) && (n <=? 32))
  || (n =? 133) || (n =? 160).

(** [str.lower] on one code point below 256: A..Z and the Latin-1 capitals
    (all of U+00C0..U+00DE but the multiplication sign) move up by 32. *)
Definition lower_char (c : ascii) : ascii :=
  let n := nat_of_ascii c in
  if ((65 <=? n) && (n <=? 90))
     || ((192 <=? n) && (n <=? 222) && negb (n =? 215))
  then ascii_of_nat (n + 32) else c.

Fixpoint lower (s : string) : string :=
  match s with
  | EmptyString => EmptyString
  | String c s' => String (lower_char c) (lower s')
  end.

(** [s.startswith(p)] *)
Definition startswith (s p : string) : bool := String.prefix p s.

(** [s.endswith(p)] *)
Definition endswith (s p : string) : bool :=
  let n := String.length s in
  let m := String.length p in
  (m <=? n) && String.eqb (String.substring (n - m) m s) p.

(** The scan behind [count], [replace] and [split]: positions are visited
    left to right; a match at a position consumes the whole pattern, so the
    next [length pattern - 1] positions are passed over ([skip]). *)
Fixpoint count_from (sub s : string) (skip : nat) : nat :=
  match s with
  | EmptyString => 0
  | String _ s' =>
      match skip with
      | S k => count_from sub s' k
      | O => if String.prefix sub s
             then S (count_from sub s' (String.length sub - 1))
             else count_from sub s' 0
      end
  end.

(** [s.count(sub)]: the number of non-overlapping occurrences; the empty
    pattern occurs between all characters and at both ends. *)
Definition count (s sub : string) : nat :=
  match sub with
  | EmptyString => S (String.length s)
  | _ => count_from sub s 0
  end.

Fixpoint replace_from (old new s : string) (skip : nat) : string :=
  match s with
  | EmptyString => EmptyString
  | String c s' =>
      match skip with
      | S k => replace_from old new s' k
      | O => if String.prefix old s
             then new ++ replace_from old new s' (String.length old - 1)
             else String c (replace_from old new s' 0)
      end
  end%string.

Fixpoint interleave (new s : string) : string :=
  match s with
  | EmptyString => new
  | String c s' => new ++ String c (interleave new s')
  end%string.

(** [s.replace(old, new)] *)
Definition replace (s old new : string) : string :=
  match old with
  | EmptyString => interleave new s
  | _ => replace_from old new s 0
  end.

Fixpoint split_from (sep s : string) (skip : nat) (cur : string) : list string :=
  match s with
  | EmptyString => [cur]
  | String c s' =>
      match skip with
      | S k => split_from sep s' k cur
      | O => if String.prefix sep s
             then cur :: split_from sep s' (String.length sep - 1) EmptyString
             else split_from sep s' 0 (cur ++ String c EmptyString)%string
      end
  end.

(** [s.split(sep)] for a non-empty separator (the only use is the literal
    of two newlines). *)
Definition split (s sep : string) : list string := split_from sep s 0 EmptyString.

Fixpoint lstrip (s : string) : string :=
  match s with
  | EmptyString => EmptyString
  | String c s' => if is_space c then lstrip s' else s
  end.

Fixpoint rstrip (s : string) : string :=
  match s with
  | EmptyString => EmptyString
  | String c s' =>
      match rstrip s' with
      | EmptyString => if is_space c then EmptyString else String c EmptyString
      | r => String c r
      end
  end.

(** [s.strip()] *)
Definition strip (s : string) : string := rstrip (lstrip s).

(** [sep.join(parts)] *)
Definition join (sep : string) (parts : list string) : string :=
  String.concat sep parts.

(** [s[:n]] *)
Fixpoint take (n : nat) (s : string) : string :=
  match n, s with
  | S n', String c s' => String c (take n' s')
  | _, _ => EmptyString
  end.

(** [s[n:]] *)
Fixpoint drop (n : nat) (s : string) : string :=
  match n, s with
  | S n', String _ s' => drop n' s'
  | _, _ => s
  end.

(** [c in s] for a single character. *)
Fixpoint has_char (c : ascii) (s : string) : bool :=
  match s with
  | EmptyString => false
  | String d s' => Ascii.eqb c d || has_char c s'
  end.

(** [sub in s] *)
Fixpoint contains (s sub : string) : bool :=
  String.prefix sub s ||
  match s with
  | EmptyString => false
  | String _ s' => contains s' sub
  end.

(** [posixpath.basename]: what follows the last slash. *)
Fixpoint basename_from (p cur : string) : string :=
  match p with
  | EmptyString => cur
  | String c p' =>
      if Ascii.eqb c "/" then basename_from p' EmptyString
      else basename_from p' (cur ++ String c EmptyString)%string
  end.

Definition basename (p : string) : string := basename_from p EmptyString.

(** [posixpath.join(a, b)]: an absolute [b] discards [a]. *)
Definition path_join (a b : string) : string :=
  if startswith b "/" then b
  else if String.eqb a EmptyString || endswith a "/" then (a ++ b)%string
  else (a ++ "/" ++ b)%string.

(** The one-character string of a line feed, and the blank-line separator. *)
Definition nl : string := String "010" EmptyString.
Definition blank_line : string := String "010" (String "010" EmptyString).

End PyStr.

(** [max(items, key=key)]: the running best is replaced only by a strictly
    larger key, so the first maximal item wins. *)
Fixpoint max_from {A : Type} (key : A -> nat) (best : A) (items : list A) : A :=
  match items with
  | [] => best
  | x :: rest => if key best <? key x then max_from key x rest
                 else max_from key best rest
  end.

(* ------------------------------------------------------------------ *)
(** ** Exceptions, Python values, and the world outside *)
(* ------------------------------------------------------------------ *)

(** The exceptions the program can meet; all are subclasses of Python's
    [Exception].  [HTTPException] is FastAPI's, with its status code and
    detail; [LibraryError] is whatever a library raises on its own
    (connection errors, unreadable PDFs, a failed model or speech call). *)
Inductive exn : Type :=
| IndexError
| KeyError (key : string)
| TypeError
| AttributeError
| JSONDecodeError
| HTTPException (status_code : Z) (detail : string)
| LibraryError (description : string).

Definition is_HTTPException (e : exn) : bool :=
  match e with HTTPException _ _ => true | _ => false end.

Definition is_JSONDecodeError (e : exn) : bool :=
  match e with JSONDecodeError => true | _ => false end.

(** What [json.loads] and [response.json()] produce, and what the
    dictionaries of [resolve_doi] hold.  Numbers are the integers. *)
#[local] Unset Elimination Schemes.
Inductive pyval : Type :=
| PNone
| PBool (b : bool)
| PInt (z : Z)
| PStr (s : string)
| PList (items : list pyval)
| PDict (entries : list (string * pyval)).
#[local] Set Elimination Schemes.

(** A dictionary with string keys, as a list of bindings. *)
Definition dict : Type := list (string * pyval).

Fixpoint dict_lookup (key : string) (d : dict) : option pyval :=
  match d with
  | [] => None
  | (k, v) :: rest => if String.eqb k key then Some v else dict_lookup key rest
  end.

(** [key in d] *)
Definition dict_has (key : string) (d : dict) : bool :=
  match dict_lookup key d with Some _ => true | None => false end.

(** [d.get(key, default)] on a dictionary. *)
Definition dict_get (d : dict) (key : string) (default : pyval) : pyval :=
  match dict_lookup key d with Some v => v | None => default end.

(** [d[key]] on a dictionary. *)
Definition dict_item (d : dict) (key : string) : exn + pyval :=
  match dict_lookup key d with Some v => inr v | None => inl (KeyError key) end.

(** [v.get(key, default)]: only dictionaries have the method. *)
Definition py_get (v : pyval) (key : string) (default : pyval) : exn + pyval :=
  match v with
  | PDict d => inr (dict_get d key default)
  | _ => inl AttributeError
  end.

(** [v[key]] with a string key. *)
Definition py_item (v : pyval) (key : string) : exn + pyval :=
  match v with
  | PDict d => dict_item d key
  | _ => inl TypeError
  end.

(** [v[0]]: the first element of a list, the first character of a string;
    a dictionary from JSON has no integer key. *)
Definition py_index0 (v : pyval) : exn + pyval :=
  match v with
  | PList (x :: _) => inr x
  | PList [] => inl IndexError
  | PStr (String c _) => inr (PStr (String c EmptyString))
  | PStr EmptyString => inl IndexError
  | PDict _ => inl (KeyError "0")
  | _ => inl TypeError
  end.

Fixpoint chars (s : string) : list string :=
  match s with
  | EmptyString => []
  | String c s' => String c EmptyString :: chars s'
  end.

(** What a [for] loop or a comprehension sees of [v]. *)
Definition py_iter (v : pyval) : exn + list pyval :=
  match v with
  | PList items => inr items
  | PStr s => inr (map PStr (chars s))
  | PDict d => inr (map (fun kv => PStr (fst kv)) d)
  | _ => inl TypeError
  end.

(** [len(v)] *)
Definition py_len (v : pyval) : exn + nat :=
  match v with
  | PList items => inr (List.length items)
  | PStr s => inr (String.length s)
  | PDict d => inr (List.length d)
  | _ => inl TypeError
  end.

(** The truth value of [v] in a condition. *)
Definition truthy (v : pyval) : bool :=
  match v with
  | PNone => false
  | PBool b => b
  | PInt z => negb (Z.eqb z 0)
  | PStr s => negb (String.eqb s EmptyString)
  | PList items => match items with [] => false | _ => true end
  | PDict d => match d with [] => false | _ => true end
  end.

(** Results in the order of the list, or the first failure. *)
Fixpoint map_exn {A B : Type} (f : A -> exn + B) (l : list A) : exn + list B :=
  match l with
  | [] => inr []
  | x :: rest =>
      match f x with
      | inl e => inl e
      | inr y => match map_exn f rest with
                 | inl e => inl e
                 | inr ys => inr (y :: ys)
                 end
      end
  end.

(** An element of the sequence handed to [str.join] must be a string. *)
Definition as_str (v : pyval) : exn + string :=
  match v with PStr s => inr s | _ => inl TypeError end.

(** [sep.join(v)] *)
Definition py_join (sep : string) (v : pyval) : exn + string :=
  match py_iter v with
  | inl e => inl e
  | inr items =>
      match map_exn as_str items with
      | inl e => inl e
      | inr parts => inr (PyStr.join sep parts)
      end
  end.

(** The object [requests.get] returns. *)
Record Response : Type := {
  status_code : Z;
  text : string;
  json : exn + pyval
}.

(** An uploaded file of a multipart request. *)
Record UploadFile : Type := {
  filename : string;
  content : string
}.

(** One call that left the program, with how it ended. *)
Inductive event : Type :=
| EvPdfReader (file_path : string) (ok : bool)
| EvRequestsGet (url : string) (timeout : option Z) (status : option Z)
| EvSummaryPipeline (paragraphs : list string) (ok : bool)
| EvTTS (text lang output_path : string) (ok : bool)
| EvTempFile (name : option string)
| EvWriteFile (path data : string) (ok : bool)
| EvUnlink (path : string) (ok : bool)
| EvRunSystem (pdf_files : list string) (topic_list doi_list urls : pyval).

(** What happened so far, the latest call first. *)
Definition history : Type := list event.

(** The collaborators.  Each answer may depend on the history; [inl] is a
    raised exception. *)
Record Env : Type := {
  (** [PdfReader(path)] and the extracted text of its pages. *)
  pdf_reader : history -> string -> exn + list string;
  (** [requests.get(url)] or [requests.get(url, timeout=t)]. *)
  requests_get : history -> string -> option Z -> exn + Response;
  (** [BeautifulSoup(text, "html.parser").find_all("p")] with [get_text()]
      of each element. *)
  html_paragraphs : string -> exn + list string;
  (** [SUMMARY_PIPELINE(paragraphs, truncation, max_length, min_length)]:
      the [summary_text] of each output. *)
  summary_pipeline : history -> list string -> bool -> Z -> Z -> exn + list string;
  (** [gTTS(text=text, lang=lang)] and [tts.save(path)]. *)
  gtts_save : history -> string -> string -> string -> exn + unit;
  (** [str(v)] of a list or dictionary. *)
  py_repr : pyval -> string;
  (** [str(e)] of an exception. *)
  exn_str : exn -> string;
  (** [json.loads] *)
  json_loads : string -> exn + pyval;
  (** [tempfile.NamedTemporaryFile(delete=False, suffix, dir)]: its name. *)
  named_temporary_file : history -> string -> string -> exn + string;
  (** Writing the whole content of a file and closing it. *)
  write_file : history -> string -> string -> exn + unit;
  (** [os.path.exists] *)
  path_exists : history -> string -> bool;
  (** [os.unlink] *)
  unlink : history -> string -> exn + unit
}.

(* ------------------------------------------------------------------ *)
(** ** Computations: a history threaded through, or an exception *)
(* ------------------------------------------------------------------ *)

Definition M (A : Type) : Type := history -> history * (exn + A).

Definition ret {A : Type} (a : A) : M A := fun h => (h, inr a).

Definition raise {A : Type} (e : exn) : M A := fun h => (h, inl e).

Definition bind {A B : Type} (m : M A) (f : A -> M B) : M B :=
  fun h => match m h with
           | (h', inr a) => f a h'
           | (h', inl e) => (h', inl e)
           end.

(** [try: m  except Exception as e: handler e] *)
Definition try_except {A : Type} (m : M A) (handler : exn -> M A) : M A :=
  fun h => match m h with
           | (h', inl e) => handler e h'
           | done => done
           end.

(** A step that touches nothing outside. *)
Definition lift {A : Type} (r : exn + A) : M A := fun h => (h, r).

(** A call outside: ask, record, go on with the answer. *)
Definition call {A : Type} (ask : history -> exn + A)
    (record : exn + A -> event) : M A :=
  fun h => let r := ask h in (record r :: h, r).

Definition succeeded {A : Type} (r : exn + A) : bool :=
  match r with inr _ => true | inl _ => false end.

Declare Scope py_scope.
Delimit Scope py_scope with py.
Notation "x <- m ;; k" := (bind m (fun x => k))
  (at level 61, m at next level, right associativity) : py_scope.
Notation "m ;; k" := (bind m (fun _ => k))
  (at level 61, right associativity) : py_scope.
Local Open Scope py_scope.

(** [for x in items: s = body x s] *)
Fixpoint for_each {A S : Type} (items : list A) (body : A -> S -> M S) (s : S) : M S :=
  match items with
  | [] => ret s
  | x :: rest => s' <- body x s ;; for_each rest body s'
  end.

(* ------------------------------------------------------------------ *)
(** ** main.py *)
(* ------------------------------------------------------------------ *)

Module Main.

Definition OUTPUT_DIR : string := "outputs".

(** The dictionaries [run_system] appends to [citations] and returns. *)
Record Citation : Type := {
  source : string;
  topic : string;
  audio : string
}.

Record PipelineResult : Type := {
  synthesis : string;
  synthesis_audio : option string;
  citations : list Citation
}.

(** What an endpoint of this file sends back: the result of the run, or
    the dictionary with the single key [error]. *)
Inductive Reply : Type :=
| Result (r : PipelineResult)
| ErrorDict (message : string).

(** *** 4. Topic classification *)

(** The key of the [max] in [classify_topic]. *)
Definition topic_count (text topic : string) : nat :=
  PyStr.count (PyStr.lower text) (PyStr.lower topic).

Definition classify_topic (text : string) (topics : list string) : string :=
  match topics with
  | [] => "Unspecified"
  | first :: rest => max_from (topic_count text) first rest
  end.

Section Pipeline.

Variable env : Env.

(** *** 1. PDF text extraction *)

Definition extract_text_from_pdf (file_path : string) : M string :=
  pages <- call (fun h => pdf_reader env h file_path)
                (fun r => EvPdfReader file_path (succeeded r)) ;;
  ret (PyStr.join PyStr.nl
         (filter (fun page => negb (String.eqb page EmptyString)) pages)).

(** *** 2. DOI metadata fetch *)

Definition get (url : string) (timeout : option Z) : M Response :=
  call (fun h => requests_get env h url timeout)
       (fun r => EvRequestsGet url timeout
                   (match r with inr resp => Some (status_code resp) | inl _ => None end)).

Definition resolve_doi (doi : string) : M dict :=
  let url := ("https://api.crossref.org/works/" ++ doi)%string in
  response <- get url None ;;
  if Z.eqb (status_code response) 200 then
    body <- lift (json response) ;;
    data <- lift (py_item body "message") ;;
    titles <- lift (py_get data "title" (PList [PStr ""])) ;;
    title <- lift (py_index0 titles) ;;
    author <- lift (py_get data "author" (PList [])) ;;
    people <- lift (py_iter author) ;;
    authors <- lift (map_exn (fun a => py_get a "family" PNone) people) ;;
    containers <- lift (py_get data "container-title" (PList [PStr ""])) ;;
    journal <- lift (py_index0 containers) ;;
    published <- lift (py_get data "published-print" (PDict [])) ;;
    date_parts <- lift (py_get published "date-parts" (PList [PList [PNone]])) ;;
    first_part <- lift (py_index0 date_parts) ;;
    date <- lift (py_index0 first_part) ;;
    link <- lift (py_get data "URL" PNone) ;;
    abstract <- lift (py_get data "abstract" (PStr "")) ;;
    ret [("title", title); ("authors", PList authors); ("journal", journal);
         ("date", date); ("link", link); ("abstract", abstract)]
  else
    ret [("error", PStr "DOI not found")].

(** *** 3. URL content fetch *)

Definition fetch_url_text (url : string) : M string :=
  try_except
    (resp <- get url (Some 10%Z) ;;
     paragraphs <- lift (html_paragraphs env (text resp)) ;;
     ret (PyStr.join PyStr.nl paragraphs))
    (fun _ => ret "").

(** *** 5. Summary generation *)

Definition generate_summary (text : string) : M string :=
  let paragraphs :=
    map PyStr.strip
      (filter (fun p => 100 <? String.length (PyStr.strip p))
         (PyStr.split text PyStr.blank_line)) in
  try_except
    (summaries <- call (fun h => summary_pipeline env h paragraphs true 200%Z 50%Z)
                       (fun r => EvSummaryPipeline paragraphs (succeeded r)) ;;
     ret (PyStr.join " " summaries))
    (fun _ => ret "Summary unavailable.").

(** *** 6. Cross-paper synthesis *)

Definition synthesize_across_papers (summaries : list string) : M string :=
  generate_summary (PyStr.join " " summaries).

(** *** 7. Audio synthesis *)

Definition generate_audio (text filename : string) : M string :=
  let output_path := PyStr.path_join OUTPUT_DIR (filename ++ ".mp3")%string in
  call (fun h => gtts_save env h text "en" output_path)
       (fun r => EvTTS text "en" output_path (succeeded r)) ;;
  ret output_path.

(** *** 8. System runner *)

(** [f"{v}"] *)
Definition format (v : pyval) : string :=
  match v with
  | PStr s => s
  | PNone => "None"
  | PBool true => "True"
  | PBool false => "False"
  | PInt z => NilZero.string_of_int (Z.to_int z)
  | _ => py_repr env v
  end.

(** [abstract.replace(..).replace(..) if abstract else ""] *)
Definition clean_abstract (abstract : pyval) : exn + string :=
  if truthy abstract then
    match abstract with
    | PStr s => inr (PyStr.replace (PyStr.replace s "<jats:p>" "") "</jats:p>" "")
    | _ => inl AttributeError
    end
  else inr "".

(** The two lists the loops append to. *)
Definition Acc : Type := (list string * list Citation)%type.

(** The body of the loop over [pdf_files]. *)
Definition process_pdf (topic_list : list string) (pdf_path : string) (acc : Acc) : M Acc :=
  let '(all_summaries, citations) := acc in
  raw_text <- extract_text_from_pdf pdf_path ;;
  summary <- generate_summary raw_text ;;
  let topic := classify_topic summary topic_list in
  audio_path <- generate_audio summary
                  (PyStr.replace (PyStr.basename pdf_path) ".pdf" "") ;;
  ret (all_summaries ++ [summary],
       citations ++ [{| source := pdf_path; topic := topic; audio := audio_path |}]).

(** The body of the loop over [doi_list]. *)
Definition process_doi (topic_list : list string) (doi : string) (acc : Acc) : M Acc :=
  let '(all_summaries, citations) := acc in
  metadata <- resolve_doi doi ;;
  if negb (dict_has "error" metadata) then
    abstract <- lift (clean_abstract (dict_get metadata "abstract" (PStr ""))) ;;
    title <- lift (dict_item metadata "title") ;;
    journal <- lift (dict_item metadata "journal") ;;
    authors <- lift (dict_item metadata "authors") ;;
    names <- lift (py_join ", " authors) ;;
    let meta_text :=
      ("Title: " ++ format title ++ PyStr.nl ++ "Journal: " ++ format journal
       ++ PyStr.nl ++ "Authors: " ++ names ++ PyStr.blank_line
       ++ "Abstract: " ++ abstract)%string in
    summary <- generate_summary meta_text ;;
    let topic := classify_topic summary topic_list in
    audio_path <- generate_audio summary (PyStr.replace doi "/" "_") ;;
    ret (all_summaries ++ [summary],
         citations ++ [{| source := doi; topic := topic; audio := audio_path |}])
  else
    ret (all_summaries, citations).

(** The name of the audio of a URL, before the extension. *)
Definition url_filename (url : string) : string :=
  PyStr.take 30
    (PyStr.replace (PyStr.replace (PyStr.replace url "https://" "") "http://" "") "/" "_").

(** The body of the loop over [urls]. *)
Definition process_url (topic_list : list string) (url : string) (acc : Acc) : M Acc :=
  let '(all_summaries, citations) := acc in
  content <- fetch_url_text url ;;
  summary <- generate_summary content ;;
  let topic := classify_topic summary topic_list in
  audio_path <- generate_audio summary (url_filename url) ;;
  ret (all_summaries ++ [summary],
       citations ++ [{| source := url; topic := topic; audio := audio_path |}]).

(** The three loops, from two empty lists. *)
Definition collect (pdf_files topic_list doi_list urls : list string) : M Acc :=
  acc <- for_each pdf_files (process_pdf topic_list) ([], []) ;;
  acc <- for_each doi_list (process_doi topic_list) acc ;;
  for_each urls (process_url topic_list) acc.

Definition run_system (pdf_files topic_list doi_list urls : list string)
    : M PipelineResult :=
  acc <- collect pdf_files topic_list doi_list urls ;;
  let '(all_summaries, citations) := acc in
  match all_summaries with
  | _ :: _ =>
      final_summary <- synthesize_across_papers all_summaries ;;
      synthesis_audio_path <- generate_audio final_summary "final_synthesis" ;;
      ret {| synthesis := final_summary;
             synthesis_audio := Some synthesis_audio_path;
             citations := citations |}
  | [] =>
      ret {| synthesis := "";
             synthesis_audio := None;
             citations := citations |}
  end.

(** *** FastAPI endpoint [POST /process] of main.py *)

(** A list of strings, when [v] is one. *)
Definition str_list (v : pyval) : option (list string) :=
  match v with
  | PList items =>
      match map_exn as_str items with
      | inr strs => Some strs
      | inl _ => None
      end
  | _ => None
  end.

(** The endpoints hand the values of the JSON payload to [run_system] as
    they are.  On lists of strings that is the function above; what it does
    with anything else is left to [run_system_untyped]. *)
Variable run_system_untyped : list string -> pyval -> pyval -> pyval -> M PipelineResult.

Definition invoke_run_system (pdf_files : list string)
    (topic_list doi_list urls : pyval) : M PipelineResult :=
  fun h =>
    let h' := EvRunSystem pdf_files topic_list doi_list urls :: h in
    match str_list topic_list, str_list doi_list, str_list urls with
    | Some topics, Some dois, Some us => run_system pdf_files topics dois us h'
    | _, _, _ => run_system_untyped pdf_files topic_list doi_list urls h'
    end.

(** The body of the loop that stores the uploads ending in [.pdf]. *)
Definition save_pdf (pdf_file : UploadFile) (pdf_paths : list string) : M (list string) :=
  if PyStr.endswith (filename pdf_file) ".pdf" then
    let temp_path := PyStr.path_join OUTPUT_DIR (filename pdf_file) in
    call (fun h => write_file env h temp_path (content pdf_file))
         (fun r => EvWriteFile temp_path (content pdf_file) (succeeded r)) ;;
    ret (pdf_paths ++ [temp_path])
  else ret pdf_paths.

(** [pdf_files] defaults to the empty list and [data] to the text of an
    empty JSON object when the request leaves them out. *)
Definition process_papers (pdf_files : list UploadFile) (data : string) : M Reply :=
  try_except
    (json_data <- lift (json_loads env data) ;;
     topic_list <- lift (py_get json_data "topic_list" (PList [])) ;;
     doi_list <- lift (py_get json_data "doi_list" (PList [])) ;;
     urls <- lift (py_get json_data "urls" (PList [])) ;;
     pdf_paths <- for_each pdf_files save_pdf [] ;;
     result <- invoke_run_system pdf_paths topic_list doi_list urls ;;
     ret (Result result))
    (fun e => ret (ErrorDict (exn_str env e))).

End Pipeline.

End Main.

(* ------------------------------------------------------------------ *)
(** ** api.py *)
(* ------------------------------------------------------------------ *)

Module Api.

Definition OUTPUT_DIR : string := "outputs".

Section Endpoint.

Variable env : Env.
Variable run_system_untyped :
  list string -> pyval -> pyval -> pyval -> M Main.PipelineResult.

(** [os.path.exists(path)] then [os.unlink(path)]. *)
Definition unlink_if_exists (path : string) : M unit :=
  fun h =>
    if path_exists env h path
    then call (fun h' => unlink env h' path)
              (fun r => EvUnlink path (succeeded r)) h
    else ret tt h.

(** The body of the loop over the uploads. *)
Definition save_upload (pdf_file : UploadFile) (pdf_paths : list string) : M (list string) :=
  temp_name <- call (fun h => named_temporary_file env h ".pdf" OUTPUT_DIR)
                    (fun r => EvTempFile
                                (match r with inr n => Some n | inl _ => None end)) ;;
  try_except
    (call (fun h => write_file env h temp_name (content pdf_file))
          (fun r => EvWriteFile temp_name (content pdf_file) (succeeded r)) ;;
     ret (pdf_paths ++ [temp_name]))
    (fun e =>
       unlink_if_exists temp_name ;;
       raise (HTTPException 500 ("Error saving PDF: " ++ exn_str env e)%string)).

(** The body of the loop that removes the temporary files. *)
Definition clean_up (pdf_path : string) (_ : unit) : M unit :=
  try_except (unlink_if_exists pdf_path) (fun _ => ret tt).

(** [pdf_files] is [None] when the request carries no file; [data] is a
    required form field. *)
Definition process_papers (pdf_files : option (list UploadFile)) (data : string)
    : M Main.PipelineResult :=
  try_except
    (fields <- try_except
                 (json_data <- lift (json_loads env data) ;;
                  doi_list <- lift (py_get json_data "doi_list" (PList [])) ;;
                  urls <- lift (py_get json_data "urls" (PList [])) ;;
                  topic_list <- lift (py_get json_data "topic_list" (PList [])) ;;
                  ret (doi_list, urls, topic_list))
                 (fun e => if is_JSONDecodeError e
                           then raise (HTTPException 400 "Invalid JSON data")
                           else raise e) ;;
     let '(doi_list, urls, topic_list) := fields in
     pdf_paths <- match pdf_files with
                  | Some ((_ :: _) as files) => for_each files save_upload []
                  | _ => ret []
                  end ;;
     if match pdf_paths with [] => true | _ => false end
        && negb (truthy doi_list) && negb (truthy urls)
     then raise (HTTPException 400
                   "At least one input type (PDFs, DOIs, or URLs) is required")
     else
       lift (py_len doi_list) ;;
       lift (py_len urls) ;;
       lift (py_len topic_list) ;;
       result <- Main.invoke_run_system env run_system_untyped
                   pdf_paths topic_list doi_list urls ;;
       for_each pdf_paths clean_up tt ;;
       ret result)
    (fun e => if is_HTTPException e then raise e
              else raise (HTTPException 500
                            ("Internal server error: " ++ exn_str env e)%string)).

End Endpoint.

End Api.


(* ------------------------------------------------------------------ *)
(** ** api.py and main.py: the endpoints over the stored files *)
(* ------------------------------------------------------------------ *)

Module Files.

(** What [FileResponse(path, media_type, filename)] is built from. *)
Record FileResponse : Type := {
  path : string;
  media_type : string;
  download_name : option string
}.

(** An entry of the listing.  [F] stands for Python's floats. *)
Record AudioFile (F : Type) : Type := {
  file_name : string;
  size : Z;
  size_mb : F
}.

Arguments file_name {F} _.
Arguments size {F} _.
Arguments size_mb {F} _.

Record Listing (F : Type) : Type := {
  audio_files : list (AudioFile F);
  total_files : nat
}.

Arguments audio_files {F} _.
Arguments total_files {F} _.

(** The answer of the bulk removal. *)
Record Deleted : Type := {
  message : string;
  deleted_count : nat
}.

(** [filename.endswith(('.mp3', '.wav', '.m4a'))] *)
Definition is_audio_name (filename : string) : bool :=
  PyStr.endswith filename ".mp3" || PyStr.endswith filename ".wav"
  || PyStr.endswith filename ".m4a".

(** [f"{n}"] of a count. *)
Definition decimal (n : nat) : string := NilZero.string_of_uint (Nat.to_uint n).

Section Endpoints.

Variable env : Env.

(** [os.listdir] and [os.path.getsize]; [os.remove] is [os.unlink] under
    its other name, and [os.path.exists] is the one of [env]. *)
Variable listdir : history -> string -> exn + list string.
Variable getsize : history -> string -> exn + Z.

(** [round(file_size / (1024 * 1024), 2)] *)
Variable F : Type.
Variable round_mb : Z -> F.

Definition exists_ (path : string) : M bool :=
  fun h => (h, inr (path_exists env h path)).

Definition remove (path : string) : M unit :=
  call (fun h => unlink env h path) (fun r => EvUnlink path (succeeded r)).

(** [GET /audio/{filename}] of api.py *)
Definition get_audio (filename : string) : M FileResponse :=
  let file_path := PyStr.path_join Api.OUTPUT_DIR filename in
  present <- exists_ file_path ;;
  if negb present then raise (HTTPException 404 "Audio file not found")
  else ret {| path := file_path; media_type := "audio/mpeg";
              download_name := Some filename |}.

(** The body of the loop of [list_audio_files]. *)
Definition list_entry (filename : string) (files : list (AudioFile F))
    : M (list (AudioFile F)) :=
  if is_audio_name filename then
    let file_path := PyStr.path_join Api.OUTPUT_DIR filename in
    file_size <- (fun h => (h, getsize h file_path)) ;;
    ret (files ++ [{| file_name := filename; size := file_size;
                      size_mb := round_mb file_size |}])
  else ret files.

(** [GET /files] *)
Definition list_audio_files : M (Listing F) :=
  try_except
    (present <- exists_ Api.OUTPUT_DIR ;;
     files <- (if present
               then names <- (fun h => (h, listdir h Api.OUTPUT_DIR)) ;;
                    for_each names list_entry []
               else ret []) ;;
     ret {| audio_files := files; total_files := List.length files |})
    (fun e => raise (HTTPException 500 ("Error listing files: " ++ exn_str env e)%string)).

(** [DELETE /files/{filename}] *)
Definition delete_audio_file (filename : string) : M string :=
  let file_path := PyStr.path_join Api.OUTPUT_DIR filename in
  present <- exists_ file_path ;;
  if negb present then raise (HTTPException 404 "File not found")
  else
    try_except
      (remove file_path ;;
       ret ("File " ++ filename ++ " deleted successfully")%string)
      (fun e => raise (HTTPException 500 ("Error deleting file: " ++ exn_str env e)%string)).

(** The body of the loop of [delete_all_audio_files]. *)
Definition delete_entry (filename : string) (deleted_count : nat) : M nat :=
  if is_audio_name filename then
    let file_path := PyStr.path_join Api.OUTPUT_DIR filename in
    remove file_path ;;
    ret (deleted_count + 1)
  else ret deleted_count.

(** [DELETE /files] *)
Definition delete_all_audio_files : M Deleted :=
  try_except
    (present <- exists_ Api.OUTPUT_DIR ;;
     deleted_count <- (if present
                       then names <- (fun h => (h, listdir h Api.OUTPUT_DIR)) ;;
                            for_each names delete_entry 0
                       else ret 0) ;;
     ret {| message := ("Deleted " ++ decimal deleted_count ++ " audio files")%string;
            deleted_count := deleted_count |})
    (fun e => raise (HTTPException 500 ("Error deleting files: " ++ exn_str env e)%string)).

(** [GET /audio/{filename}] of main.py: the file, or the dictionary with
    the key [error] in a normal response. *)
Definition main_get_audio (filename : string) : M (FileResponse + string) :=
  let audio_path := PyStr.path_join Main.OUTPUT_DIR filename in
  present <- exists_ audio_path ;;
  if present
  then ret (inl {| path := audio_path; media_type := "audio/mpeg";
                   download_name := None |})
  else ret (inr "Audio file not found").

End Endpoints.

End Files.

(* ------------------------------------------------------------------ *)
(** ** gradio_interface.py *)
(* ------------------------------------------------------------------ *)

Module Gradio.

(** [[d.strip() for d in s.split(",") if d.strip()] if s else []] *)
Definition parse_list (s : string) : list string :=
  if String.eqb s EmptyString then []
  else map PyStr.strip
         (filter (fun d => negb (String.eqb (PyStr.strip d) EmptyString))
            (PyStr.split s ",")).

(** The three outputs of the form: synthesis text, synthesis audio,
    citations in Markdown. *)
Definition Outputs : Type := (string * option string * string)%type.

(** Characters of the messages beyond code point 255 stand as their UTF-8
    bytes. *)
Definition missing_inputs : Outputs :=
  ("❌ Error: Please provide at least one input (PDFs, DOIs, or URLs)",
   None,
   "No processing performed due to missing inputs.").

Definition citations_header : string :=
  ("### 📚 Individual Paper Summaries & Audio" ++ PyStr.blank_line)%string.

(** The block of the [i]-th citation. *)
Definition citation_block (i : nat) (citation : Main.Citation) : string :=
  ("#### Paper " ++ Files.decimal i ++ PyStr.nl
   ++ "**Source:** " ++ Main.source citation ++ PyStr.nl
   ++ "**Topic:** " ++ Main.topic citation ++ PyStr.nl
   ++ "**Audio File:** " ++ Main.audio citation ++ PyStr.blank_line)%string.

(** [for i, citation in enumerate(citations, i): out += block] *)
Fixpoint citation_blocks (i : nat) (citations : list Main.Citation) (out : string)
    : string :=
  match citations with
  | [] => out
  | citation :: rest =>
      citation_blocks (S i) rest (out ++ citation_block i citation)%string
  end.

Definition format_citations (citations : list Main.Citation) : string :=
  match citations with
  | _ :: _ => citation_blocks 1 citations citations_header
  | [] => (citations_header ++ "No individual papers were processed.")%string
  end.

Section Interface.

Variable env : Env.

(** [pdf_files] holds the paths ([f.name]) of the uploaded files, or is
    [None]. *)
Definition process_papers_and_create_podcast (pdf_files : option (list string))
    (doi_string url_string topic_string : string) : M Outputs :=
  try_except
    (let pdf_paths := match pdf_files with
                      | Some ((_ :: _) as names) => names
                      | _ => []
                      end in
     let doi_list := parse_list doi_string in
     let url_list := parse_list url_string in
     let topic_list := parse_list topic_string in
     match pdf_paths, doi_list, url_list with
     | [], [], [] => ret missing_inputs
     | _, _, _ =>
         result <- Main.run_system env pdf_paths topic_list doi_list url_list ;;
         ret (Main.synthesis result, Main.synthesis_audio result,
              format_citations (Main.citations result))
     end)
    (fun e =>
       ret (("❌ Error during processing: " ++ exn_str env e)%string,
            None,
            "Processing failed. Please check your inputs and try again.")).

End Interface.

(** [clear_inputs] and [show_example]: the four fields of the form. *)
Definition clear_inputs : option (list string) * string * string * string :=
  (None, "", "", "").

Definition show_example : option (list string) * string * string * string :=
  (None,
   "10.1016/j.cell.2023.01.001, 10.1038/s41586-023-05988-x",
   "https://arxiv.org/abs/2301.12345, https://www.nature.com/articles/s41586-023-05988-x",
   "machine learning, quantum computing, biology").

End Gradio.

(* ------------------------------------------------------------------ *)
(** ** main.py run from the command line *)
(* ------------------------------------------------------------------ *)

Module Cli.

(** [[x.strip() for x in s.split(",")]] *)
Definition entries (s : string) : list string :=
  map PyStr.strip (PyStr.split s ",").

(** [input()]: the next line typed, or the end of the input. *)
Definition input (answers : list string) : exn + (string * list string) :=
  match answers with
  | line :: rest => inr (line, rest)
  | [] => inl (LibraryError "EOFError")
  end.

(** The entries asked for when [digit in choice], none otherwise. *)
Definition ask_entries (digit choice : string) (answers : list string)
    : exn + (list string * list string) :=
  if PyStr.contains choice digit then
    match input answers with
    | inl e => inl e
    | inr (line, rest) => inr (entries (PyStr.strip line), rest)
    end
  else inr ([], answers).

(** What the menu makes of the lines typed. *)
Record Arguments : Type := {
  pdf_paths : list string;
  topics : list string;
  doi_list : list string;
  url_list : list string
}.

(** The prompts of the menu, in order, over the lines typed: the
    arguments of [run_system], or [None] when the choice holds the digit
    of the exit, which is looked at last. *)
Definition arguments (answers : list string) : exn + option Arguments :=
  match input answers with
  | inl e => inl e
  | inr (choice, answers) =>
      match input answers with
      | inl e => inl e
      | inr (topic_line, answers) =>
          let topic_input := PyStr.strip topic_line in
          let topics := if String.eqb topic_input EmptyString then []
                        else entries topic_input in
          match ask_entries "1" choice answers with
          | inl e => inl e
          | inr (pdf_paths, answers) =>
              match ask_entries "2" choice answers with
              | inl e => inl e
              | inr (doi_list, answers) =>
                  match ask_entries "3" choice answers with
                  | inl e => inl e
                  | inr (url_list, answers) =>
                      if PyStr.contains choice "4" then inr None
                      else inr (Some {| pdf_paths := pdf_paths; topics := topics;
                                        doi_list := doi_list; url_list := url_list |})
                  end
              end
          end
      end
  end.

(** The menu: the run, unless the user left. *)
Definition main (env : Env) (answers : list string) : M (option Main.PipelineResult) :=
  match arguments answers with
  | inl e => raise e
  | inr None => ret None
  | inr (Some args) =>
      bind (Main.run_system env (pdf_paths args) (topics args)
              (doi_list args) (url_list args))
           (fun result => ret (Some result))
  end.

End Cli.

(* ------------------------------------------------------------------ *)
(** ** Reading histories, and the words of the specification *)
(* ------------------------------------------------------------------ *)

(** The address [resolve_doi] asks. *)
Definition crossref_url (doi : string) : string :=
  ("https://api.crossref.org/works/" ++ doi)%string.

(** A registry lookup is the one [get] without a timeout; the page fetch
    of a URL item always carries one. *)
Definition doi_lookup (ev : event) : list (string * option Z) :=
  match ev with
  | EvRequestsGet url None status => [(url, status)]
  | _ => []
  end.

(** The registry lookups of a stretch of history, the oldest first, each
    with the status it met ([None] when the call raised). *)
Definition doi_lookups (events : history) : list (string * option Z) :=
  rev (flat_map doi_lookup events).

Definition found (status : option Z) : bool :=
  match status with
  | Some code => Z.eqb code 200
  | None => false
  end.

(** The DOIs, of a list, whose lookup met status 200. *)
Definition resolved (dois : list string) (statuses : list (option Z)) : list string :=
  map fst (filter (fun answer => found (snd answer)) (combine dois statuses)).

(** The citation of an item: its locator, the topic of its summary, and
    the audio file its name stands for. *)
Definition cite (topic_list : list string) (name : string -> string)
    (src summary : string) : Main.Citation :=
  {| Main.source := src;
     Main.topic := Main.classify_topic summary topic_list;
     Main.audio := PyStr.path_join Main.OUTPUT_DIR (name src ++ ".mp3")%string |}.

(** The citations of a list of items, given the summary of each. *)
Definition cited (topic_list : list string) (name : string -> string)
    (srcs summaries : list string) : list Main.Citation :=
  map (fun item => cite topic_list name (fst item) (snd item))
      (combine srcs summaries).

(** The names of the audio of a PDF and of a DOI, before the extension. *)
Definition pdf_filename (pdf_path : string) : string :=
  PyStr.replace (PyStr.basename pdf_path) ".pdf" "".

Definition doi_filename (doi : string) : string := PyStr.replace doi "/" "_".

(** The turns of a loop, given what one successful turn of its body does
    (the events it adds, the state it leaves); the events of a later turn
    come first. *)
Section Turns.

Context {A S : Type}.
Variable Step : A -> S -> history -> S -> Prop.

Inductive Steps : list A -> S -> history -> S -> Prop :=
| Steps_done (s : S) : Steps [] s [] s
| Steps_turn (x : A) (rest : list A) (s s1 s2 : S) (new1 new2 : history) :
    Step x s new1 s1 -> Steps rest s1 new2 s2 ->
    Steps (x :: rest) s (new2 ++ new1) s2.

End Turns.

(** A turn that appends the summary and the citation of [src] and asks
    the registry nothing. *)
Definition appends (topic_list : list string) (name : string -> string)
    (src : string) (acc : Main.Acc) (new : history) (acc' : Main.Acc) : Prop :=
  doi_lookups new = [] /\
  exists summary,
    acc' = (fst acc ++ [summary], snd acc ++ cited topic_list name [src] [summary]).

(** A turn on a DOI: one lookup; the lists grow when it met status 200 and
    stay as they are otherwise. *)
Definition resolves (topic_list : list string) (doi : string)
    (acc : Main.Acc) (new : history) (acc' : Main.Acc) : Prop :=
  exists status,
    doi_lookups new = [(crossref_url doi, status)] /\
    if found status
    then exists summary,
        acc' = (fst acc ++ [summary],
                snd acc ++ cited topic_list doi_filename [doi] [summary])
    else acc' = acc.

(** The file name of a URL's audio in the words of the specification: the
    URL without its scheme prefix, slashes turned into underscores, cut to
    30 characters. *)
Definition without_scheme_prefix (url : string) : string :=
  if PyStr.startswith url "https://" then PyStr.drop 8 url
  else if PyStr.startswith url "http://" then PyStr.drop 7 url
  else url.

Definition spec_url_filename (url : string) : string :=
  PyStr.take 30 (PyStr.replace (without_scheme_prefix url) "/" "_").

(** ** Sample worlds *)

Module Sample.

(** A registry that knows one DOI. *)
Definition known_message : dict :=
  [("title", PList [PStr "Attention"]);
   ("author", PList [PDict [("family", PStr "Doe")]; PDict [("family", PStr "Roe")]]);
   ("container-title", PList [PStr "Journal"]);
   ("URL", PStr "https://doi.org/10.1/known");
   ("abstract", PStr "<jats:p>Short.</jats:p>")].

Definition page (status : Z) (body : exn + pyval) : Response :=
  {| status_code := status; text := "<p>Hello</p>"; json := body |}.

Definition web (url : string) : exn + Response :=
  if String.eqb url (crossref_url "10.1/known")
  then inr (page 200 (inr (PDict [("message", PDict known_message)])))
  else if PyStr.startswith url "https://api.crossref.org/"
  then inr (page 404 (inl JSONDecodeError))
  else inr (page 200 (inl JSONDecodeError)).

(** A registry whose every answer is a record without any title. *)
Definition untitled_message : dict :=
  [("title", PList []); ("container-title", PList [])].

Definition untitled_page : Response :=
  page 200 (inr (PDict [("message", PDict untitled_message)])).

Definition untitled_web (_ : string) : exn + Response := inr untitled_page.

(** A model that answers each paragraph with its first twenty characters. *)
Definition model (paragraphs : list string) : exn + list string :=
  inr (map (PyStr.take 20) paragraphs).

Definition describe (e : exn) : string :=
  match e with
  | IndexError => "list index out of range"
  | KeyError key => key
  | TypeError => "type error"
  | AttributeError => "attribute error"
  | JSONDecodeError => "Expecting value"
  | HTTPException _ detail => detail
  | LibraryError description => description
  end.

(** A JSON reader that knows the text of the empty object. *)
Definition loads (data : string) : exn + pyval :=
  if String.eqb data "{}" then inr (PDict []) else inl JSONDecodeError.

(** A world over a given network and model; files and speech never fail. *)
Definition world (net : string -> exn + Response)
    (summarise : list string -> exn + list string) : Env :=
  {| pdf_reader := fun _ _ => inr ["First page."; ""; "Third page."];
     requests_get := fun _ url _ => net url;
     html_paragraphs := fun _ => inr ["Hello"];
     summary_pipeline := fun _ paragraphs _ _ _ => summarise paragraphs;
     gtts_save := fun _ _ _ _ => inr tt;
     py_repr := fun _ => "[...]";
     exn_str := describe;
     json_loads := loads;
     named_temporary_file := fun _ suffix dir => inr (dir ++ "/tmp0001" ++ suffix)%string;
     write_file := fun _ _ _ => inr tt;
     path_exists := fun _ _ => true;
     unlink := fun _ _ => inr tt |}.

Definition env : Env := world web model.

(** The same world with the network down and no readable PDF. *)
Definition offline : Env :=
  {| pdf_reader := fun _ _ => inl (LibraryError "cannot read PDF");
     requests_get := fun _ _ _ => inl (LibraryError "connection refused");
     html_paragraphs := html_paragraphs env;
     summary_pipeline := summary_pipeline env;
     gtts_save := gtts_save env;
     py_repr := py_repr env;
     exn_str := exn_str env;
     json_loads := json_loads env;
     named_temporary_file := named_temporary_file env;
     write_file := write_file env;
     path_exists := path_exists env;
     unlink := unlink env |}.

(** What [run_system] is taken to do with ill-typed arguments here. *)
Definition untyped (_ : list string) (_ _ _ : pyval) : M Main.PipelineResult :=
  raise TypeError.

(** One run: a PDF, a known and an unknown DOI, and a page. *)
Definition run : history * (exn + Main.PipelineResult) :=
  Main.run_system env ["papers/a.pdf"] ["hello"; "page"]
    ["10.1/known"; "10.1/unknown"] ["https://example.org/talk"] [].

Definition result_of (outcome : history * (exn + Main.PipelineResult))
    : Main.PipelineResult :=
  match snd outcome with
  | inr result => result
  | inl _ => {| Main.synthesis := ""; Main.synthesis_audio := None;
                Main.citations := [] |}
  end.

End Sample.

(* ------------------------------------------------------------------ *)
(** ** More readings of a history *)
(* ------------------------------------------------------------------ *)

(** The file and the outcome of a call of the speech engine. *)
Definition speech_call (ev : event) : list (string * bool) :=
  match ev with
  | EvTTS _ _ output_path ok => [(output_path, ok)]
  | _ => []
  end.

(** The calls of the speech engine in a stretch of history, the oldest
    first. *)
Definition speech_calls (events : history) : list (string * bool) :=
  rev (flat_map speech_call events).

(** The calls of the summarisation model in a stretch of history. *)
Definition model_call (ev : event) : list (list string) :=
  match ev with
  | EvSummaryPipeline paragraphs _ => [paragraphs]
  | _ => []
  end.

Definition model_calls (events : history) : list (list string) :=
  rev (flat_map model_call events).

(** Between two states of the loops, over a stretch of history: as many
    summaries as citations were appended, the speech engine wrote the file
    of each new citation, in order and without failure, and the model was
    asked once per new citation. *)
Definition grows (acc : Main.Acc) (new : history) (acc' : Main.Acc) : Prop :=
  exists summaries added,
    List.length summaries = List.length added
    /\ acc' = (fst acc ++ summaries, snd acc ++ added)
    /\ speech_calls new = map (fun c => (Main.audio c, true)) added
    /\ List.length (model_calls new) = List.length added.

(** What is left of a left trim is empty or starts with a visible
    character. *)
Definition starts_visible (s : string) : Prop :=
  match s with
  | EmptyString => True
  | String c _ => PyStr.is_space c = false
  end.

(** ** More sample worlds *)

Module Worlds.

(** The sample world with a speech engine that is out of reach. *)
Definition silent : Env :=
  {| pdf_reader := pdf_reader Sample.env;
     requests_get := requests_get Sample.env;
     html_paragraphs := html_paragraphs Sample.env;
     summary_pipeline := summary_pipeline Sample.env;
     gtts_save := fun _ _ _ _ => inl (LibraryError "speech engine unreachable");
     py_repr := py_repr Sample.env;
     exn_str := exn_str Sample.env;
     json_loads := json_loads Sample.env;
     named_temporary_file := named_temporary_file Sample.env;
     write_file := write_file Sample.env;
     path_exists := path_exists Sample.env;
     unlink := unlink Sample.env |}.

(** The sample world on a disk that refuses every removal. *)
Definition sticky : Env :=
  {| pdf_reader := pdf_reader Sample.env;
     requests_get := requests_get Sample.env;
     html_paragraphs := html_paragraphs Sample.env;
     summary_pipeline := summary_pipeline Sample.env;
     gtts_save := gtts_save Sample.env;
     py_repr := py_repr Sample.env;
     exn_str := exn_str Sample.env;
     json_loads := json_loads Sample.env;
     named_temporary_file := named_temporary_file Sample.env;
     write_file := write_file Sample.env;
     path_exists := path_exists Sample.env;
     unlink := fun _ _ => inl (LibraryError "permission denied") |}.

Definition upload : UploadFile :=
  {| filename := "paper.pdf"; content := "%PDF-1.4" |}.

End Worlds.

(** The call of [run_system] that the upload of [Worlds.upload] with an
    empty payload leads to, on the disk that refuses removals. *)
Definition sticky_call : history * (exn + Main.PipelineResult) :=
  Main.invoke_run_system Worlds.sticky Sample.untyped ["outputs/tmp0001.pdf"]
    (PList []) (PList []) (PList [])
    [EvWriteFile "outputs/tmp0001.pdf" "%PDF-1.4" true;
     EvTempFile (Some "outputs/tmp0001.pdf")].

(** The path and the outcome of a removal. *)
Definition removal (ev : event) : list (string * bool) :=
  match ev with
  | EvUnlink path ok => [(path, ok)]
  | _ => []
  end.

(** The removals of a stretch of history, the oldest first. *)
Definition removals (events : history) : list (string * bool) :=
  rev (flat_map removal events).

(** The file of the output directory with a given name. *)
Definition stored (filename : string) : string :=
  PyStr.path_join Api.OUTPUT_DIR filename.

(** A directory of the sample disk. *)
Definition sample_listing (_ : history) (_ : string) : exn + list string :=
  inr ["talk.mp3"; "notes.txt"; "voice.wav"; "tmp0001.pdf"; "memo.m4a"].

Definition sample_sizes (_ : history) (_ : string) : exn + Z := inr 2048%Z.
(* ------------------------------------------------------------------ *)
(** ** Properties *)
(* ------------------------------------------------------------------ *)

Local Open Scope py_scope.

(** *** The string operations on known cases *)

Example count_cases :
  PyStr.count "aaaa" "aa" = 2 /\ PyStr.count "abc" "" = 4
  /\ PyStr.count "banana" "ana" = 1.
Proof. repeat split. Qed.

Example replace_cases :
  PyStr.replace "a/b/c" "/" "_" = "a_b_c"
  /\ PyStr.replace "aaa" "aa" "b" = "ba"
  /\ PyStr.replace "abc" "" "-" = "-a-b-c-".
Proof. repeat split. Qed.

Example split_cases :
  PyStr.split ("a" ++ PyStr.blank_line ++ "b") PyStr.blank_line = ["a"; "b"]
  /\ PyStr.split "" PyStr.blank_line = [""]
  /\ PyStr.split (PyStr.blank_line ++ PyStr.nl) PyStr.blank_line = [""; PyStr.nl].
Proof. repeat split. Qed.

Example strip_cases :
  PyStr.strip ("  x y " ++ PyStr.nl) = "x y" /\ PyStr.strip "   " = ""
  /\ PyStr.lower "Deep LEARNING" = "deep learning".
Proof. repeat split. Qed.

Example path_cases :
  PyStr.basename "dir/sub/file.pdf" = "file.pdf"
  /\ PyStr.path_join "outputs" "a.mp3" = "outputs/a.mp3"
  /\ PyStr.path_join "outputs" "/tmp/a.mp3" = "/tmp/a.mp3"
  /\ PyStr.endswith "paper.pdf" ".pdf" = true.
Proof. repeat split. Qed.

Example classify_topic_cases :
  Main.classify_topic "Deep learning beats shallow learning"
    ["Beats"; "LEARNING"; "deep"; "learning"] = "LEARNING"
  /\ Main.classify_topic "nothing here" ["alpha"; "beta"] = "alpha".
Proof. repeat split. Qed.

(** *** The first maximum *)

Section FirstMaximum.

Context {A : Type} (key : A -> nat).

(** [max_from] returns an item of the list, no item has a larger key, and
    every item before it has a strictly smaller one. *)
Lemma max_from_first_max (items : list A) :
  forall best,
  exists i,
    nth_error (best :: items) i = Some (max_from key best items) /\
    (forall t, In t (best :: items) -> key t <= key (max_from key best items)) /\
    (forall j t, j < i -> nth_error (best :: items) j = Some t ->
                 key t < key (max_from key best items)).
Proof.
  induction items as [|x rest IH]; intros best.
  - exists 0. cbn. split; [reflexivity|]. split.
    + intros t [<-|[]]. lia.
    + intros j t Hj. lia.
  - cbn [max_from]. destruct (Nat.ltb_spec (key best) (key x)) as [Hlt|Hge].
    + destruct (IH x) as (i & Hi & Hall & Hbefore).
      exists (S i). split; [exact Hi|]. split.
      * intros t [<-|Hin].
        -- specialize (Hall x (or_introl eq_refl)). lia.
        -- apply Hall, Hin.
      * intros [|j] t Hj Ht.
        -- cbn in Ht. injection Ht as <-.
           specialize (Hall x (or_introl eq_refl)). lia.
        -- apply (Hbefore j); [lia | exact Ht].
    + destruct (IH best) as (i & Hi & Hall & Hbefore).
      assert (Hx : key x <= key (max_from key best rest)).
      { specialize (Hall best (or_introl eq_refl)). lia. }
      destruct i as [|i].
      * exists 0. split; [exact Hi|]. split.
        -- intros t [<-|[<-|Hin]]; [apply Hall; left; reflexivity | exact Hx |].
           apply Hall. right. exact Hin.
        -- intros j t Hj. lia.
      * exists (S (S i)). split; [exact Hi|]. split.
        -- intros t [<-|[<-|Hin]]; [apply Hall; left; reflexivity | exact Hx |].
           apply Hall. right. exact Hin.
        -- intros [|[|j]] t Hj Ht.
           ++ apply (Hbefore 0); [lia | exact Ht].
           ++ cbn in Ht. injection Ht as <-.
              assert (key best < key (max_from key best rest))
                by (apply (Hbefore 0); [lia | reflexivity]).
              lia.
           ++ apply (Hbefore (S j)); [lia | exact Ht].
Qed.

End FirstMaximum.

(** C1.  With no topic, [classify_topic] answers ["Unspecified"].  With
    topics, it answers one of them: the count of its lower-cased form in
    the lower-cased text is the largest of all, and every topic listed
    before it has a strictly smaller count. *)
Theorem classify_topic_first_argmax (text : string) :
  Main.classify_topic text [] = "Unspecified" /\
  forall (first : string) (rest : list string),
    let topics := first :: rest in
    let best := Main.classify_topic text topics in
    exists i,
      nth_error topics i = Some best /\
      (forall t, In t topics ->
                 PyStr.count (PyStr.lower text) (PyStr.lower t)
                 <= PyStr.count (PyStr.lower text) (PyStr.lower best)) /\
      (forall j t, j < i -> nth_error topics j = Some t ->
                   PyStr.count (PyStr.lower text) (PyStr.lower t)
                   < PyStr.count (PyStr.lower text) (PyStr.lower best)).
Proof.
  split; [reflexivity|].
  intros first rest topics best.
  exact (max_from_first_max (Main.topic_count text) rest first).
Qed.

(** *** How the calls of the pipeline run *)

Section Runs.

Variable env : Env.

(** [generate_summary] asks the model once and never raises. *)
Lemma generate_summary_run (text : string) (h : history) :
  let paragraphs :=
    map PyStr.strip
      (filter (fun p => 100 <? String.length (PyStr.strip p))
         (PyStr.split text PyStr.blank_line)) in
  let answer := summary_pipeline env h paragraphs true 200%Z 50%Z in
  Main.generate_summary env text h =
  (EvSummaryPipeline paragraphs (succeeded answer) :: h,
   inr match answer with
       | inr summaries => PyStr.join " " summaries
       | inl _ => "Summary unavailable."
       end).
Proof.
  cbv zeta. unfold Main.generate_summary, try_except, bind, call, ret.
  destruct (summary_pipeline env h _ true 200%Z 50%Z); reflexivity.
Qed.

(** [generate_audio] asks the speech engine once, for the file the name
    stands for, and returns that path when the engine does not raise. *)
Lemma generate_audio_run (text name : string) (h : history) :
  let output_path := PyStr.path_join Main.OUTPUT_DIR (name ++ ".mp3")%string in
  let answer := gtts_save env h text "en" output_path in
  Main.generate_audio env text name h =
  (EvTTS text "en" output_path (succeeded answer) :: h,
   match answer with
   | inr _ => inr output_path
   | inl e => inl e
   end).
Proof.
  cbv zeta. unfold Main.generate_audio, bind, call, ret.
  destruct (gtts_save env h text "en" _); reflexivity.
Qed.

(** [extract_text_from_pdf] reads once; a failure of the reader is the
    failure of the call. *)
Lemma extract_text_from_pdf_run (file_path : string) (h : history) :
  let answer := pdf_reader env h file_path in
  Main.extract_text_from_pdf env file_path h =
  (EvPdfReader file_path (succeeded answer) :: h,
   match answer with
   | inr pages =>
       inr (PyStr.join PyStr.nl
              (filter (fun page => negb (String.eqb page EmptyString)) pages))
   | inl e => inl e
   end).
Proof.
  cbv zeta. unfold Main.extract_text_from_pdf, bind, call, ret.
  destruct (pdf_reader env h file_path); reflexivity.
Qed.

(** [fetch_url_text] asks the network once, with the timeout. *)
Lemma fetch_url_text_run (url : string) (h : history) :
  let answer := requests_get env h url (Some 10%Z) in
  Main.fetch_url_text env url h =
  (EvRequestsGet url (Some 10%Z)
     match answer with inr resp => Some (status_code resp) | inl _ => None end :: h,
   inr match answer with
       | inr resp =>
           match html_paragraphs env (text resp) with
           | inr paragraphs => PyStr.join PyStr.nl paragraphs
           | inl _ => ""
           end
       | inl _ => ""
       end).
Proof.
  cbv zeta. unfold Main.fetch_url_text, Main.get, try_except, bind, call, lift, ret.
  destruct (requests_get env h url (Some 10%Z)) as [e|resp]; [reflexivity|].
  destruct (html_paragraphs env (text resp)); reflexivity.
Qed.

(** [resolve_doi] asks the registry once, without a timeout; what it
    returns carries the key [error] exactly when the status is not 200. *)
Lemma resolve_doi_run (doi : string) (h : history) :
  let answer := requests_get env h (crossref_url doi) None in
  let status := match answer with inr resp => Some (status_code resp) | inl _ => None end in
  fst (Main.resolve_doi env doi h) = EvRequestsGet (crossref_url doi) None status :: h /\
  forall metadata, snd (Main.resolve_doi env doi h) = inr metadata ->
                   dict_has "error" metadata = negb (found status).
Proof.
  cbv zeta. unfold Main.resolve_doi, Main.get, bind, call, lift, ret.
  fold (crossref_url doi).
  destruct (requests_get env h (crossref_url doi) None) as [e|resp]; cbn.
  { split; [reflexivity | discriminate]. }
  destruct (Z.eqb (status_code resp) 200) eqn:Hstatus; cbn.
  2: { split; [reflexivity|]. intros metadata [= <-]. reflexivity. }
  repeat match goal with
         | |- context [match ?scrutinee with inl _ => _ | inr _ => _ end] =>
             destruct scrutinee; cbn
         end;
    (split; [reflexivity|]); try discriminate.
  intros metadata [= <-]. reflexivity.
Qed.

End Runs.

(** *** Paragraphs that do not pass the length filter *)

Lemma no_long_paragraph (paragraphs : list string) :
  Forall (fun p => String.length (PyStr.strip p) <= 100) paragraphs ->
  filter (fun p => 100 <? String.length (PyStr.strip p)) paragraphs = [].
Proof.
  induction 1 as [|p rest Hp _ IH]; [reflexivity|].
  cbn [filter].
  destruct (Nat.ltb_spec 100 (String.length (PyStr.strip p))); [lia | exact IH].
Qed.

(** C2, as the code has it.  When no paragraph of the text is longer than
    100 characters once trimmed, [generate_summary] hands the model the
    empty batch, once.  It returns ["Summary unavailable."] when the model
    raises on that batch, and otherwise the model's outputs joined by a
    space: the empty string when the model returns none. *)
Theorem generate_summary_short_paragraphs (env : Env) (text : string) (h : history) :
  Forall (fun p => String.length (PyStr.strip p) <= 100)
         (PyStr.split text PyStr.blank_line) ->
  let answer := summary_pipeline env h [] true 200%Z 50%Z in
  Main.generate_summary env text h =
  (EvSummaryPipeline [] (succeeded answer) :: h,
   inr match answer with
       | inr summaries => PyStr.join " " summaries
       | inl _ => "Summary unavailable."
       end)
  /\ (answer = inr [] -> snd (Main.generate_summary env text h) = inr "").
Proof.
  intros Hshort answer.
  pose proof (generate_summary_run env text h) as Hrun. cbv zeta in Hrun.
  rewrite (no_long_paragraph _ Hshort) in Hrun. cbn [map] in Hrun.
  fold answer in Hrun. split; [exact Hrun|].
  intros Hempty. rewrite Hrun, Hempty. reflexivity.
Qed.

Lemma generate_summary_short_paragraphs_witness :
  Main.generate_summary Sample.env "A short note." [] =
  (EvSummaryPipeline [] true :: [], inr "")
  /\ (Sample.model [] = inr [] ->
      snd (Main.generate_summary Sample.env "A short note." []) = inr "").
Proof.
  apply (generate_summary_short_paragraphs Sample.env "A short note." []).
  repeat constructor.
Defined.

(** C2 as worded fails: with a model that answers the empty batch with no
    output, the summary of a text without a long paragraph is the empty
    string, not the placeholder. *)
Lemma generate_summary_short_not_placeholder :
  ~ (forall (env : Env) (text : string) (h : history),
       Forall (fun p => String.length (PyStr.strip p) <= 100)
              (PyStr.split text PyStr.blank_line) ->
       snd (Main.generate_summary env text h) = inr "Summary unavailable.").
Proof.
  intros Hclaim.
  specialize (Hclaim Sample.env "A short note." []).
  assert (Hshort : Forall (fun p => String.length (PyStr.strip p) <= 100)
                          (PyStr.split "A short note." PyStr.blank_line)).
  { repeat constructor. }
  specialize (Hclaim Hshort). vm_compute in Hclaim. discriminate Hclaim.
Qed.

(** C3.  Without PDF, DOI or URL, [run_system] returns the empty
    synthesis, no synthesis audio and no citation, and the history is the
    one it started from: nothing was summarised and nothing was spoken. *)
Theorem run_system_no_input (env : Env) (topic_list : list string) (h : history) :
  Main.run_system env [] topic_list [] [] h =
  (h, inr {| Main.synthesis := "";
             Main.synthesis_audio := None;
             Main.citations := [] |}).
Proof.
  unfold Main.run_system, Main.collect, bind.
  (* the three loops run over empty lists and leave both lists empty *)
  cbn [for_each]. unfold ret.
  (* so the branch without synthesis is taken *)
  reflexivity.
Qed.

(** *** The metadata resolver and the page fetcher *)

(** One step of a computation that stopped on the answer of a pure call. *)
Ltac split_answer :=
  match goal with
  | |- context [match ?scrutinee with inl _ => _ | inr _ => _ end] =>
      destruct scrutinee eqn:?; cbn
  end.

(** C5.  When the registry answers with a status other than 200,
    [resolve_doi] does not raise: it returns the dictionary whose only key
    is [error], so none of title, authors, journal, date, link and abstract
    is in it. *)
Theorem resolve_doi_not_found (env : Env) (doi : string) (h : history)
    (resp : Response) :
  requests_get env h (crossref_url doi) None = inr resp ->
  status_code resp <> 200%Z ->
  let metadata := [("error", PStr "DOI not found")] in
  Main.resolve_doi env doi h =
    (EvRequestsGet (crossref_url doi) None (Some (status_code resp)) :: h,
     inr metadata)
  /\ dict_has "error" metadata = true
  /\ forall key,
       In key ["title"; "authors"; "journal"; "date"; "link"; "abstract"] ->
       dict_has key metadata = false.
Proof.
  intros Hget Hstatus metadata. split; [|split].
  - unfold Main.resolve_doi, Main.get, bind, call, lift, ret.
    fold (crossref_url doi). rewrite Hget.
    apply Z.eqb_neq in Hstatus. rewrite Hstatus. reflexivity.
  - reflexivity.
  - intros key Hkey. cbn in Hkey.
    repeat (destruct Hkey as [<-|Hkey]; [reflexivity|]). contradiction.
Qed.

Lemma resolve_doi_not_found_witness :
  Main.resolve_doi Sample.env "10.1/unknown" [] =
    ([EvRequestsGet (crossref_url "10.1/unknown") None (Some 404%Z)],
     inr [("error", PStr "DOI not found")])
  /\ dict_has "error" [("error", PStr "DOI not found")] = true
  /\ forall key,
       In key ["title"; "authors"; "journal"; "date"; "link"; "abstract"] ->
       dict_has key [("error", PStr "DOI not found")] = false.
Proof.
  apply (resolve_doi_not_found Sample.env "10.1/unknown" []
           (Sample.page 404 (inl JSONDecodeError))).
  - reflexivity.
  - discriminate.
Defined.

(** C9.  On a 200 answer whose [message] binds [title] to the empty list,
    [resolve_doi] raises [IndexError]; with [container-title] bound to the
    empty list it raises as well.  The defaults serve absent keys only: a
    returned record has the empty title when [title] is absent, the empty
    journal when [container-title] is absent, and the empty [message]
    yields the record of all defaults. *)
Theorem resolve_doi_empty_list_raises (env : Env) (doi : string) (h : history)
    (resp : Response) (body message : dict) :
  requests_get env h (crossref_url doi) None = inr resp ->
  status_code resp = 200%Z ->
  json resp = inr (PDict body) ->
  dict_lookup "message" body = Some (PDict message) ->
  let outcome := snd (Main.resolve_doi env doi h) in
  (dict_lookup "title" message = Some (PList []) -> outcome = inl IndexError)
  /\ (dict_lookup "container-title" message = Some (PList []) ->
      exists e, outcome = inl e)
  /\ (dict_lookup "title" message = None ->
      forall metadata, outcome = inr metadata ->
                       dict_lookup "title" metadata = Some (PStr ""))
  /\ (dict_lookup "container-title" message = None ->
      forall metadata, outcome = inr metadata ->
                       dict_lookup "journal" metadata = Some (PStr ""))
  /\ (message = [] ->
      outcome = inr [("title", PStr ""); ("authors", PList []);
                     ("journal", PStr ""); ("date", PNone);
                     ("link", PNone); ("abstract", PStr "")]).
Proof.
  intros Hget Hstatus Hjson Hmessage outcome. subst outcome.
  unfold Main.resolve_doi, Main.get, bind, call, lift, ret.
  fold (crossref_url doi). rewrite Hget, Hstatus, Hjson. cbn.
  unfold dict_item. rewrite Hmessage. cbn. unfold dict_get.
  repeat split.
  - intros Htitle. rewrite Htitle. reflexivity.
  - intros Hcontainer. rewrite Hcontainer. cbn.
    repeat split_answer; eauto.
  - intros Htitle. rewrite Htitle. cbn.
    repeat split_answer; intros metadata; try discriminate.
    intros [= <-]. reflexivity.
  - intros Hcontainer. rewrite Hcontainer. cbn.
    repeat split_answer; intros metadata; try discriminate.
    intros [= <-]. reflexivity.
  - intros ->. reflexivity.
Qed.

Lemma resolve_doi_empty_list_raises_witness :
  snd (Main.resolve_doi (Sample.world Sample.untitled_web Sample.model) "10.1/x" [])
  = inl IndexError.
Proof.
  exact (proj1
           (resolve_doi_empty_list_raises
              (Sample.world Sample.untitled_web Sample.model) "10.1/x" []
              Sample.untitled_page
              [("message", PDict Sample.untitled_message)]
              Sample.untitled_message
              eq_refl eq_refl eq_refl eq_refl)
           eq_refl).
Defined.

(** C8.  [fetch_url_text] never raises: it returns a string whatever the
    network and the parser do, and the empty string when the request or
    the parsing fails.  The text extractor and the metadata resolver do not
    recover: a failure of the PDF reader, or of the registry request, is
    raised to their caller. *)
Theorem fetch_url_text_never_raises (env : Env) (h : history) :
  (forall url,
     exists h' content,
       Main.fetch_url_text env url h = (h', inr content)
       /\ (forall e, requests_get env h url (Some 10%Z) = inl e -> content = "")
       /\ (forall resp e,
             requests_get env h url (Some 10%Z) = inr resp ->
             html_paragraphs env (text resp) = inl e -> content = ""))
  /\ (forall file_path e,
        pdf_reader env h file_path = inl e ->
        snd (Main.extract_text_from_pdf env file_path h) = inl e)
  /\ (forall doi e,
        requests_get env h (crossref_url doi) None = inl e ->
        snd (Main.resolve_doi env doi h) = inl e).
Proof.
  split; [|split].
  - intros url. pose proof (fetch_url_text_run env url h) as Hrun. cbv zeta in Hrun.
    eexists. eexists. split; [exact Hrun|]. split.
    + intros e He. rewrite He. reflexivity.
    + intros resp e Hget Hparse. rewrite Hget, Hparse. reflexivity.
  - intros file_path e Hread.
    pose proof (extract_text_from_pdf_run env file_path h) as Hrun. cbv zeta in Hrun.
    rewrite Hrun, Hread. reflexivity.
  - intros doi e Hget.
    unfold Main.resolve_doi, Main.get, bind, call.
    fold (crossref_url doi). rewrite Hget. reflexivity.
Qed.

Lemma fetch_url_text_never_raises_witness :
  snd (Main.extract_text_from_pdf Sample.offline "paper.pdf" [])
  = inl (LibraryError "cannot read PDF")
  /\ snd (Main.resolve_doi Sample.offline "10.1/known" [])
     = inl (LibraryError "connection refused").
Proof.
  split.
  - apply (proj1 (proj2 (fetch_url_text_never_raises Sample.offline []))).
    reflexivity.
  - apply (proj2 (proj2 (fetch_url_text_never_raises Sample.offline []))).
    reflexivity.
Defined.

(** With the network down, the page fetcher still answers. *)
Example fetch_url_text_offline :
  Main.fetch_url_text Sample.offline "https://example.org/paper" []
  = ([EvRequestsGet "https://example.org/paper" (Some 10%Z) None], inr "").
Proof. reflexivity. Qed.

(** *** Loops, one step after the other *)

Ltac use_run lemma :=
  let H := fresh "Hrun" in
  pose proof lemma as H; cbv zeta in H; rewrite H; clear H.

Lemma doi_lookups_app (later earlier : history) :
  doi_lookups (later ++ earlier) = doi_lookups earlier ++ doi_lookups later.
Proof.
  unfold doi_lookups. rewrite flat_map_app, rev_app_distr. reflexivity.
Qed.

Section Loops.

Context {A S : Type} (body : A -> S -> M S).

(** What one successful turn of the body does: the events it adds and the
    state it leaves. *)
Variable Step : A -> S -> history -> S -> Prop.

Hypothesis body_step :
  forall x s h h' s',
    body x s h = (h', inr s') -> exists new, h' = new ++ h /\ Step x s new s'.

Lemma for_each_steps (items : list A) :
  forall s h h' s',
    for_each items body s h = (h', inr s') ->
    exists new, h' = new ++ h /\ Steps Step items s new s'.
Proof.
  induction items as [|x rest IH]; intros s h h' s' Hrun.
  - cbn in Hrun. injection Hrun as <- <-. exists []. split; [reflexivity | constructor].
  - cbn [for_each] in Hrun. unfold bind in Hrun.
    destruct (body x s h) as [h1 [e|s1]] eqn:Hbody; [discriminate|].
    destruct (body_step _ _ _ _ _ Hbody) as (new1 & -> & Hstep).
    destruct (IH _ _ _ _ Hrun) as (new2 & -> & Hsteps).
    exists (new2 ++ new1). split; [apply app_assoc|].
    econstructor; eassumption.
Qed.

End Loops.

Section Items.

Variable env : Env.
Variable topic_list : list string.

Lemma process_pdf_step (pdf_path : string) (acc : Main.Acc) (h h' : history)
    (acc' : Main.Acc) :
  Main.process_pdf env topic_list pdf_path acc h = (h', inr acc') ->
  exists new, h' = new ++ h /\ appends topic_list pdf_filename pdf_path acc new acc'.
Proof.
  destruct acc as [all_summaries citations].
  unfold Main.process_pdf, bind.
  use_run (extract_text_from_pdf_run env pdf_path h).
  destruct (pdf_reader env h pdf_path) as [e|pages]; [discriminate|].
  use_run (generate_summary_run env). use_run (generate_audio_run env).
  match goal with
  | |- context [gtts_save env ?h1 ?t ?l ?p] => destruct (gtts_save env h1 t l p)
  end; [discriminate|].
  unfold ret. intros [= <- <-].
  eexists [_; _; _]. split; [reflexivity|]. split; [reflexivity|].
  eexists. reflexivity.
Qed.

Lemma process_url_step (url : string) (acc : Main.Acc) (h h' : history)
    (acc' : Main.Acc) :
  Main.process_url env topic_list url acc h = (h', inr acc') ->
  exists new, h' = new ++ h /\ appends topic_list Main.url_filename url acc new acc'.
Proof.
  destruct acc as [all_summaries citations].
  unfold Main.process_url, bind.
  use_run (fetch_url_text_run env url h).
  use_run (generate_summary_run env). use_run (generate_audio_run env).
  match goal with
  | |- context [gtts_save env ?h1 ?t ?l ?p] => destruct (gtts_save env h1 t l p)
  end; [discriminate|].
  unfold ret. intros [= <- <-].
  eexists [_; _; _]. split; [reflexivity|]. split; [reflexivity|].
  eexists. reflexivity.
Qed.

Lemma process_doi_step (doi : string) (acc : Main.Acc) (h h' : history)
    (acc' : Main.Acc) :
  Main.process_doi env topic_list doi acc h = (h', inr acc') ->
  exists new, h' = new ++ h /\ resolves topic_list doi acc new acc'.
Proof.
  destruct acc as [all_summaries citations].
  unfold Main.process_doi, bind.
  destruct (resolve_doi_run env doi h) as [Hhistory Herror].
  destruct (Main.resolve_doi env doi h) as [h1 [e|metadata]]; [discriminate|].
  cbn [fst snd] in Hhistory, Herror. subst h1.
  rewrite (Herror metadata eq_refl).
  set (status := match requests_get env h (crossref_url doi) None with
                 | inr resp => Some (status_code resp)
                 | inl _ => None
                 end).
  destruct (found status) eqn:Hfound; cbn [negb].
  - unfold lift.
    repeat match goal with
           | |- context [match ?scrutinee with inl _ => _ | inr _ => _ end] =>
               destruct scrutinee; [discriminate|]
           end.
    use_run (generate_summary_run env). use_run (generate_audio_run env).
    match goal with
    | |- context [gtts_save env ?h1 ?t ?l ?p] => destruct (gtts_save env h1 t l p)
    end; [discriminate|].
    unfold ret. intros [= <- <-].
    eexists [_; _; _]. split; [reflexivity|].
    exists status. split; [reflexivity|]. rewrite Hfound.
    eexists. reflexivity.
  - unfold ret. intros [= <- <-].
    eexists [_]. split; [reflexivity|].
    exists status. split; [reflexivity|]. rewrite Hfound. reflexivity.
Qed.

End Items.

(** *** What the three loops leave behind *)

Lemma cited_sources (topic_list : list string) (name : string -> string)
    (srcs : list string) :
  forall summaries,
    List.length summaries = List.length srcs ->
    map Main.source (cited topic_list name srcs summaries) = srcs.
Proof.
  induction srcs as [|src rest IH]; intros [|summary summaries] Hlen;
    try discriminate; [reflexivity|].
  cbn. f_equal. apply IH. cbn in Hlen. lia.
Qed.

Lemma cited_length (topic_list : list string) (name : string -> string)
    (srcs summaries : list string) :
  List.length summaries = List.length srcs ->
  List.length (cited topic_list name srcs summaries) = List.length summaries.
Proof.
  intros Hlen. unfold cited. rewrite length_map, length_combine. lia.
Qed.

Section LoopFacts.

Variable topic_list : list string.

(** A loop of appending turns: no lookup, one summary and one citation
    per item, in the order of the items. *)
Lemma appends_steps (name : string -> string) (items : list string)
    (acc acc' : Main.Acc) (new : history) :
  Steps (appends topic_list name) items acc new acc' ->
  doi_lookups new = [] /\
  exists summaries,
    List.length summaries = List.length items /\
    acc' = (fst acc ++ summaries, snd acc ++ cited topic_list name items summaries).
Proof.
  induction 1 as [acc | src rest acc acc1 acc2 new1 new2 Hstep _ IH].
  - split; [reflexivity|]. exists []. split; [reflexivity|].
    cbn. rewrite !app_nil_r. destruct acc; reflexivity.
  - destruct Hstep as (Hnew1 & summary & ->).
    destruct IH as (Hnew2 & summaries & Hlen & ->).
    split.
    + rewrite doi_lookups_app, Hnew1, Hnew2. reflexivity.
    + exists (summary :: summaries). split; [cbn; lia|].
      cbn [fst snd]. rewrite <- !app_assoc. reflexivity.
Qed.

(** The loop over the DOIs: one lookup per DOI, in order; one summary and
    one citation for each DOI whose lookup met status 200, in order. *)
Lemma resolves_steps (dois : list string) (acc acc' : Main.Acc) (new : history) :
  Steps (resolves topic_list) dois acc new acc' ->
  exists statuses summaries,
    doi_lookups new = combine (map crossref_url dois) statuses /\
    List.length statuses = List.length dois /\
    List.length summaries = List.length (resolved dois statuses) /\
    acc' = (fst acc ++ summaries,
            snd acc ++ cited topic_list doi_filename (resolved dois statuses) summaries).
Proof.
  induction 1 as [acc | doi rest acc acc1 acc2 new1 new2 Hstep _ IH].
  - exists [], []. repeat split. cbn. rewrite !app_nil_r. destruct acc; reflexivity.
  - destruct Hstep as (status & Hnew1 & Hacc1).
    destruct IH as (statuses & summaries & Hnew2 & Hlen & Hsum & ->).
    rewrite doi_lookups_app, Hnew1, Hnew2.
    destruct (found status) eqn:Hfound.
    + destruct Hacc1 as (summary & ->).
      exists (status :: statuses), (summary :: summaries).
      unfold resolved. cbn [combine filter map snd fst]. rewrite Hfound.
      repeat split; cbn; try lia.
      * unfold resolved in Hsum. lia.
      * rewrite <- !app_assoc. reflexivity.
    + subst acc1.
      exists (status :: statuses), summaries.
      unfold resolved. cbn [combine filter map snd fst]. rewrite Hfound.
      repeat split; cbn; try lia. exact Hsum.
Qed.

End LoopFacts.

Section WholeRun.

Variable env : Env.
Variables pdf_files topic_list doi_list urls : list string.

(** The state after the three loops of a run that got through them. *)
Lemma collect_shape (h h' : history) (acc : Main.Acc) :
  Main.collect env pdf_files topic_list doi_list urls h = (h', inr acc) ->
  exists new statuses from_pdfs from_dois from_urls,
    h' = new ++ h /\
    doi_lookups new = combine (map crossref_url doi_list) statuses /\
    List.length statuses = List.length doi_list /\
    List.length from_pdfs = List.length pdf_files /\
    List.length from_dois = List.length (resolved doi_list statuses) /\
    List.length from_urls = List.length urls /\
    acc = (from_pdfs ++ from_dois ++ from_urls,
           cited topic_list pdf_filename pdf_files from_pdfs
           ++ cited topic_list doi_filename (resolved doi_list statuses) from_dois
           ++ cited topic_list Main.url_filename urls from_urls).
Proof.
  unfold Main.collect, bind.
  destruct (for_each pdf_files _ _ h) as [h1 [e|acc1]] eqn:Hpdfs; [discriminate|].
  destruct (for_each doi_list _ _ h1) as [h2 [e|acc2]] eqn:Hdois; [discriminate|].
  intros Hurls.
  apply (for_each_steps _ _ (process_pdf_step env topic_list)) in Hpdfs.
  apply (for_each_steps _ _ (process_doi_step env topic_list)) in Hdois.
  apply (for_each_steps _ _ (process_url_step env topic_list)) in Hurls.
  destruct Hpdfs as (new1 & -> & Hpdfs).
  destruct Hdois as (new2 & -> & Hdois).
  destruct Hurls as (new3 & -> & Hurls).
  apply appends_steps in Hpdfs. destruct Hpdfs as (Hnew1 & from_pdfs & Hlen1 & ->).
  apply resolves_steps in Hdois.
  destruct Hdois as (statuses & from_dois & Hnew2 & Hlen & Hlen2 & ->).
  apply appends_steps in Hurls. destruct Hurls as (Hnew3 & from_urls & Hlen3 & ->).
  exists (new3 ++ new2 ++ new1), statuses, from_pdfs, from_dois, from_urls.
  repeat split; try assumption.
  - rewrite !app_assoc. reflexivity.
  - rewrite !doi_lookups_app, Hnew1, Hnew2, Hnew3, app_nil_r. reflexivity.
  - cbn [fst snd app]. rewrite <- !app_assoc. reflexivity.
Qed.

(** The result of a run that returned one: the lookups it made, and the
    citations and the synthesis audio in terms of the collected
    summaries. *)
Lemma run_system_shape (h h' : history) (result : Main.PipelineResult) :
  Main.run_system env pdf_files topic_list doi_list urls h = (h', inr result) ->
  exists new statuses from_pdfs from_dois from_urls,
    h' = new ++ h /\
    doi_lookups new = combine (map crossref_url doi_list) statuses /\
    List.length statuses = List.length doi_list /\
    List.length from_pdfs = List.length pdf_files /\
    List.length from_dois = List.length (resolved doi_list statuses) /\
    List.length from_urls = List.length urls /\
    Main.citations result =
      cited topic_list pdf_filename pdf_files from_pdfs
      ++ cited topic_list doi_filename (resolved doi_list statuses) from_dois
      ++ cited topic_list Main.url_filename urls from_urls /\
    (Main.synthesis_audio result = None <-> from_pdfs ++ from_dois ++ from_urls = []).
Proof.
  unfold Main.run_system, bind.
  destruct (Main.collect env pdf_files topic_list doi_list urls h)
    as [h1 [e|[all_summaries citations]]] eqn:Hcollect; [discriminate|].
  apply collect_shape in Hcollect.
  destruct Hcollect as (new & statuses & from_pdfs & from_dois & from_urls
                        & -> & Hnew & Hlen & Hlen1 & Hlen2 & Hlen3 & Hacc).
  injection Hacc as -> ->.
  destruct (from_pdfs ++ from_dois ++ from_urls) as [|summary summaries] eqn:Hall.
  - unfold ret. intros [= <- <-].
    exists new, statuses, from_pdfs, from_dois, from_urls.
    repeat split; try assumption; try reflexivity.
    intros _. exact Hall.
  - unfold Main.synthesize_across_papers.
    use_run (generate_summary_run env). use_run (generate_audio_run env).
    match goal with
    | |- context [gtts_save env ?h1 ?t ?l ?p] => destruct (gtts_save env h1 t l p)
    end; [discriminate|].
    unfold ret. intros [= <- <-].
    eexists (_ :: _ :: new), statuses, from_pdfs, from_dois, from_urls.
    repeat split; try assumption; try reflexivity.
    + cbn. discriminate.
    + rewrite Hall. discriminate.
Qed.

End WholeRun.

(** *** Citations and synthesis *)

(** The two lists of the loops have the same length. *)
Lemma collect_lockstep (env : Env) (pdf_files topic_list doi_list urls : list string)
    (h h' : history) (all_summaries : list string) (citations : list Main.Citation) :
  Main.collect env pdf_files topic_list doi_list urls h
  = (h', inr (all_summaries, citations)) ->
  List.length all_summaries = List.length citations.
Proof.
  intros Hcollect. apply collect_shape in Hcollect.
  destruct Hcollect as (new & statuses & from_pdfs & from_dois & from_urls
                        & _ & _ & _ & Hlen1 & Hlen2 & Hlen3 & Hacc).
  injection Hacc as -> ->.
  rewrite !length_app, !cited_length by assumption. reflexivity.
Qed.

(** A DOI whose record carries the error marker leaves both lists as they
    were. *)
Lemma process_doi_skips (env : Env) (topic_list : list string) (doi : string)
    (acc : Main.Acc) (h h' : history) (metadata : dict) :
  Main.resolve_doi env doi h = (h', inr metadata) ->
  dict_has "error" metadata = true ->
  Main.process_doi env topic_list doi acc h = (h', inr acc).
Proof.
  intros Hresolve Herror. destruct acc as [all_summaries citations].
  unfold Main.process_doi, bind. rewrite Hresolve, Herror. reflexivity.
Qed.

(** C4.  In a run that returns, the registry was asked once per DOI, in
    the order of the DOIs, and the sources of the citations are all PDFs
    in order, then the DOIs whose lookup met status 200 in order, then all
    URLs in order: one citation each.  A DOI resolved to the error marker
    adds neither a summary nor a citation. *)
Theorem run_system_citations_follow_input (env : Env)
    (pdf_files topic_list doi_list urls : list string)
    (h h' : history) (result : Main.PipelineResult) :
  Main.run_system env pdf_files topic_list doi_list urls h = (h', inr result) ->
  (exists new statuses,
     h' = new ++ h /\
     doi_lookups new = combine (map crossref_url doi_list) statuses /\
     List.length statuses = List.length doi_list /\
     map Main.source (Main.citations result)
     = pdf_files ++ resolved doi_list statuses ++ urls)
  /\ (forall doi acc h0 h1 metadata,
        Main.resolve_doi env doi h0 = (h1, inr metadata) ->
        dict_has "error" metadata = true ->
        Main.process_doi env topic_list doi acc h0 = (h1, inr acc)).
Proof.
  intros Hrun. split.
  - apply run_system_shape in Hrun.
    destruct Hrun as (new & statuses & from_pdfs & from_dois & from_urls
                      & Hh & Hnew & Hlen & Hlen1 & Hlen2 & Hlen3 & Hcit & _).
    exists new, statuses. repeat split; try assumption.
    rewrite Hcit, !map_app, !cited_sources by assumption. reflexivity.
  - intros doi acc h0 h1 metadata. apply process_doi_skips.
Qed.

Lemma run_system_citations_follow_input_witness :
  exists new statuses,
    fst Sample.run = new ++ [] /\
    doi_lookups new
    = combine (map crossref_url ["10.1/known"; "10.1/unknown"]) statuses /\
    List.length statuses = 2 /\
    map Main.source (Main.citations (Sample.result_of Sample.run))
    = ["papers/a.pdf"] ++ resolved ["10.1/known"; "10.1/unknown"] statuses
      ++ ["https://example.org/talk"].
Proof.
  apply (proj1 (run_system_citations_follow_input Sample.env
                  ["papers/a.pdf"] ["hello"; "page"]
                  ["10.1/known"; "10.1/unknown"] ["https://example.org/talk"]
                  [] (fst Sample.run) (Sample.result_of Sample.run)
                  ltac:(vm_compute; reflexivity))).
Defined.

(** C10.  In every result of [run_system], the synthesis audio is absent
    exactly when there is no citation: the loops leave as many summaries
    as citations, and the synthesis is made exactly when there is a
    summary. *)
Theorem synthesis_audio_absent_iff_no_citation (env : Env)
    (pdf_files topic_list doi_list urls : list string)
    (h h' : history) (result : Main.PipelineResult) :
  Main.run_system env pdf_files topic_list doi_list urls h = (h', inr result) ->
  (Main.synthesis_audio result = None <-> Main.citations result = [])
  /\ exists h1 all_summaries,
       Main.collect env pdf_files topic_list doi_list urls h
       = (h1, inr (all_summaries, Main.citations result))
       /\ List.length all_summaries = List.length (Main.citations result)
       /\ (Main.synthesis_audio result = None <-> all_summaries = []).
Proof.
  unfold Main.run_system, bind.
  destruct (Main.collect env pdf_files topic_list doi_list urls h)
    as [h1 [e|[all_summaries citations]]] eqn:Hcollect; [discriminate|].
  pose proof (collect_lockstep _ _ _ _ _ _ _ _ _ Hcollect) as Hlen.
  destruct all_summaries as [|summary summaries].
  - unfold ret. intros [= <- <-]. cbn [Main.synthesis_audio Main.citations].
    destruct citations; [|discriminate].
    split; [tauto|]. exists h1, []. repeat split.
  - unfold Main.synthesize_across_papers.
    use_run (generate_summary_run env). use_run (generate_audio_run env).
    match goal with
    | |- context [gtts_save env ?h1 ?t ?l ?p] => destruct (gtts_save env h1 t l p)
    end; [discriminate|].
    unfold ret. intros [= <- <-]. cbn [Main.synthesis_audio Main.citations].
    destruct citations; [discriminate|].
    split; [split; discriminate|].
    exists h1, (summary :: summaries). repeat split; try assumption; discriminate.
Qed.

Lemma synthesis_audio_absent_iff_no_citation_witness :
  (Main.synthesis_audio (Sample.result_of Sample.run) = None
   <-> Main.citations (Sample.result_of Sample.run) = []).
Proof.
  apply (proj1 (synthesis_audio_absent_iff_no_citation Sample.env
                  ["papers/a.pdf"] ["hello"; "page"]
                  ["10.1/known"; "10.1/unknown"] ["https://example.org/talk"]
                  [] (fst Sample.run) (Sample.result_of Sample.run)
                  ltac:(vm_compute; reflexivity))).
Defined.

(** The sample run, spelled out. *)
Example sample_run_sources :
  map Main.source (Main.citations (Sample.result_of Sample.run))
  = ["papers/a.pdf"; "10.1/known"; "https://example.org/talk"]
  /\ map Main.audio (Main.citations (Sample.result_of Sample.run))
     = ["outputs/a.mp3"; "outputs/10.1_known.mp3"; "outputs/example.org_talk.mp3"]
  /\ Main.synthesis_audio (Sample.result_of Sample.run)
     = Some "outputs/final_synthesis.mp3".
Proof. vm_compute. repeat split. Qed.

(** *** The audio file of a URL *)

Lemma take_length (n : nat) : forall s, String.length (PyStr.take n s) <= n.
Proof.
  induction n as [|n IH]; intros [|c s]; cbn; try lia.
  specialize (IH s). lia.
Qed.

Lemma take_keeps_out (c : ascii) (n : nat) :
  forall s, PyStr.has_char c s = false -> PyStr.has_char c (PyStr.take n s) = false.
Proof.
  induction n as [|n IH]; intros [|d s]; cbn; try reflexivity.
  intros Hout. apply orb_false_iff in Hout. destruct Hout as [-> Hout].
  cbn. apply IH, Hout.
Qed.

Lemma prefix_empty (s : string) : String.prefix "" s = true.
Proof. destruct s; reflexivity. Qed.

(** Replacing every slash leaves no slash. *)
Lemma replace_slash_leaves_none (s : string) :
  PyStr.has_char "/" (PyStr.replace s "/" "_") = false.
Proof.
  unfold PyStr.replace. generalize 0 as skip.
  induction s as [|c s IH]; intros skip; [reflexivity|].
  cbn [PyStr.replace_from]. destruct skip as [|skip]; [|apply IH].
  cbn [String.prefix]. destruct (ascii_dec "/" c) as [Heq|Hneq].
  - rewrite prefix_empty.
    change (PyStr.has_char "/" (String "_" (PyStr.replace_from "/" "_" s 0)) = false).
    cbn [PyStr.has_char]. rewrite IH. reflexivity.
  - cbn [PyStr.has_char]. apply Ascii.eqb_neq in Hneq. rewrite Hneq. apply IH.
Qed.

(** A name without a slash is a file of the output directory. *)
Lemma path_join_output_dir (name : string) :
  PyStr.has_char "/" name = false ->
  PyStr.path_join Main.OUTPUT_DIR (name ++ ".mp3")
  = ("outputs/" ++ name ++ ".mp3")%string.
Proof.
  intros Hname. unfold PyStr.path_join, PyStr.startswith.
  replace (String.prefix "/" (name ++ ".mp3")) with false; [reflexivity|].
  destruct name as [|c name]; [reflexivity|].
  cbn [PyStr.has_char] in Hname. apply orb_false_iff in Hname.
  destruct Hname as [Hc _]. apply Ascii.eqb_neq in Hc.
  cbn [String.append String.prefix].
  destruct (ascii_dec "/" c); [contradiction | reflexivity].
Qed.

(** Nothing is replaced where the pattern does not occur. *)
Lemma replace_from_absent (old new : string) :
  forall s, PyStr.contains s old = false -> PyStr.replace_from old new s 0 = s.
Proof.
  induction s as [|c s IH]; [reflexivity|].
  cbn [PyStr.contains PyStr.replace_from]. intros Habsent.
  apply orb_false_iff in Habsent. destruct Habsent as [-> Habsent].
  f_equal. apply IH, Habsent.
Qed.

(** A leading scheme is removed, and only it when there is no other. *)
Lemma replace_scheme_prefix (rest : string) :
  PyStr.contains rest "https://" = false ->
  PyStr.contains rest "http://" = false ->
  forall url,
    url = ("https://" ++ rest)%string \/ url = ("http://" ++ rest)%string \/ url = rest ->
    PyStr.replace (PyStr.replace url "https://" "") "http://" "" = rest
    /\ without_scheme_prefix url = rest.
Proof.
  intros Hhttps Hhttp url [-> | [-> | ->]]; unfold PyStr.replace.
  - split.
    + cbn. rewrite prefix_empty, (replace_from_absent _ _ _ Hhttps).
      apply replace_from_absent, Hhttp.
    + unfold without_scheme_prefix, PyStr.startswith. cbn.
      rewrite prefix_empty. reflexivity.
  - split.
    + cbn. rewrite (replace_from_absent _ _ _ Hhttps). cbn.
      rewrite prefix_empty. apply replace_from_absent, Hhttp.
    + unfold without_scheme_prefix, PyStr.startswith. cbn.
      rewrite prefix_empty. reflexivity.
  - split.
    + rewrite (replace_from_absent _ _ _ Hhttps).
      apply replace_from_absent, Hhttp.
    + unfold without_scheme_prefix, PyStr.startswith.
      destruct rest as [|c rest]; [reflexivity|].
      cbn [PyStr.contains] in Hhttps, Hhttp.
      apply orb_false_iff in Hhttps, Hhttp.
      destruct Hhttps as [-> _]. destruct Hhttp as [-> _]. reflexivity.
Qed.

Lemma url_filename_no_slash (url : string) :
  PyStr.has_char "/" (Main.url_filename url) = false.
Proof. apply take_keeps_out, replace_slash_leaves_none. Qed.

(** C6, as the code has it.  For a URL item, the name handed to the audio
    synthesis is the URL with every occurrence of the text of the secure
    scheme, then of the plain one, removed, slashes turned into
    underscores, cut to its first 30 characters: it has at most 30
    characters and no slash.  The speech engine is asked for the file of
    that name with the extension [.mp3] in the output directory, and the
    citation names that file.  When the URL is a scheme followed by a rest
    in which neither scheme occurs, or is such a rest alone, the name is
    the one the specification words: the rest, slashes replaced, cut to
    30 characters. *)
Theorem url_audio_file (env : Env) (topic_list : list string) (url : string)
    (acc : Main.Acc) (h : history) :
  let name := Main.url_filename url in
  let path := ("outputs/" ++ name ++ ".mp3")%string in
  String.length name <= 30
  /\ PyStr.has_char "/" name = false
  /\ (exists summary ok earlier,
        fst (Main.process_url env topic_list url acc h)
        = EvTTS summary "en" path ok :: earlier ++ h
        /\ forall acc',
             snd (Main.process_url env topic_list url acc h) = inr acc' ->
             acc' = (fst acc ++ [summary],
                     snd acc ++ [{| Main.source := url;
                                    Main.topic := Main.classify_topic summary topic_list;
                                    Main.audio := path |}]))
  /\ (forall rest,
        PyStr.contains rest "https://" = false ->
        PyStr.contains rest "http://" = false ->
        url = ("https://" ++ rest)%string \/ url = ("http://" ++ rest)%string
        \/ url = rest ->
        name = spec_url_filename url
        /\ name = PyStr.take 30 (PyStr.replace rest "/" "_")).
Proof.
  intros name path. split; [apply take_length|].
  split; [apply url_filename_no_slash|]. split.
  - destruct acc as [all_summaries citations].
    unfold Main.process_url, bind.
    use_run (fetch_url_text_run env url h).
    use_run (generate_summary_run env). use_run (generate_audio_run env).
    rewrite (path_join_output_dir _ (url_filename_no_slash url)).
    fold name. fold path.
    match goal with
    | |- context [EvTTS ?summary "en" path (succeeded ?answer) :: ?e2 :: ?e1 :: h] =>
        exists summary, (succeeded answer), [e2; e1]; destruct answer
    end; (split; [reflexivity|]); intros acc'; [discriminate|].
    unfold ret. intros [= <-]. reflexivity.
  - intros rest Hhttps Hhttp Hurl.
    destruct (replace_scheme_prefix rest Hhttps Hhttp url Hurl) as [Hcode Hspec].
    unfold name, Main.url_filename, spec_url_filename.
    rewrite Hcode, Hspec. split; reflexivity.
Qed.

Lemma url_audio_file_witness :
  Main.url_filename "https://example.org/talk"
  = spec_url_filename "https://example.org/talk"
  /\ Main.url_filename "https://example.org/talk"
     = PyStr.take 30 (PyStr.replace "example.org/talk" "/" "_").
Proof.
  apply (proj2 (proj2 (proj2
           (url_audio_file Sample.env [] "https://example.org/talk" ([], []) [])))
           "example.org/talk");
    [reflexivity | reflexivity | left; reflexivity].
Defined.

(** C6 as worded fails: the name is not always the URL without its scheme
    prefix.  A scheme inside the URL goes as well. *)
Lemma url_filename_drops_inner_scheme :
  ~ (forall url, Main.url_filename url = spec_url_filename url).
Proof.
  intros Hclaim.
  specialize (Hclaim "https://web.archive.org/web/2020/http://example.com/paper").
  vm_compute in Hclaim. discriminate Hclaim.
Qed.

Example url_filename_archive :
  Main.url_filename "https://web.archive.org/web/2020/http://example.com/paper"
  = "web.archive.org_web_2020_examp"
  /\ spec_url_filename "https://web.archive.org/web/2020/http://example.com/paper"
     = "web.archive.org_web_2020_http:".
Proof. split; reflexivity. Qed.

(** *** The endpoints that take a request to the pipeline *)

Section Endpoints.

Variable env : Env.
Variable run_system_untyped :
  list string -> pyval -> pyval -> pyval -> M Main.PipelineResult.

(** api.py answers a payload that is not JSON with status 400 and calls
    nothing. *)
Lemma api_rejects_bad_json (pdf_files : option (list UploadFile)) (data : string)
    (h : history) :
  json_loads env data = inl JSONDecodeError ->
  Api.process_papers env run_system_untyped pdf_files data h
  = (h, inl (HTTPException 400 "Invalid JSON data")).
Proof.
  intros Hloads.
  unfold Api.process_papers, try_except, bind, lift, raise.
  rewrite Hloads. reflexivity.
Qed.

(** api.py answers a request without PDF, DOI and URL with status 400 and
    calls nothing. *)
Lemma api_rejects_no_input (pdf_files : option (list UploadFile)) (data : string)
    (payload : dict) (h : history) :
  json_loads env data = inr (PDict payload) ->
  pdf_files = None \/ pdf_files = Some [] ->
  truthy (dict_get payload "doi_list" (PList [])) = false ->
  truthy (dict_get payload "urls" (PList [])) = false ->
  Api.process_papers env run_system_untyped pdf_files data h
  = (h, inl (HTTPException 400
               "At least one input type (PDFs, DOIs, or URLs) is required")).
Proof.
  intros Hloads Hfiles Hdois Hurls.
  unfold Api.process_papers, try_except, bind, lift, raise, ret.
  rewrite Hloads. cbn [py_get].
  destruct Hfiles as [-> | ->]; rewrite Hdois, Hurls; reflexivity.
Qed.

(** main.py answers a payload that cannot be read with the dictionary of
    the error and calls nothing. *)
Lemma main_rejects_bad_json (pdf_files : list UploadFile) (data : string)
    (e : exn) (h : history) :
  json_loads env data = inl e ->
  Main.process_papers env run_system_untyped pdf_files data h
  = (h, inr (Main.ErrorDict (exn_str env e))).
Proof.
  intros Hloads.
  unfold Main.process_papers, try_except, bind, lift, ret.
  rewrite Hloads. reflexivity.
Qed.

End Endpoints.

(** C7 fails on the endpoint of main.py.  Given a JSON object that lists
    no DOI and no URL, and no uploaded file, it does not reject the
    request: it invokes [run_system] with three empty inputs and answers
    with the empty result.  (The endpoint of api.py rejects the same
    request, see [api_rejects_no_input].) *)
Theorem main_process_papers_runs_without_input (env : Env)
    (run_system_untyped : list string -> pyval -> pyval -> pyval -> M Main.PipelineResult)
    (data : string) (payload : dict) (topics : list string) (h : history) :
  json_loads env data = inr (PDict payload) ->
  dict_get payload "doi_list" (PList []) = PList [] ->
  dict_get payload "urls" (PList []) = PList [] ->
  Main.str_list (dict_get payload "topic_list" (PList [])) = Some topics ->
  Main.process_papers env run_system_untyped [] data h
  = (EvRunSystem [] (dict_get payload "topic_list" (PList [])) (PList []) (PList []) :: h,
     inr (Main.Result {| Main.synthesis := "";
                         Main.synthesis_audio := None;
                         Main.citations := [] |})).
Proof.
  intros Hloads Hdois Hurls Htopics.
  unfold Main.process_papers, try_except, bind, lift, ret.
  rewrite Hloads. cbn [py_get for_each ret].
  unfold Main.invoke_run_system. rewrite Hdois, Hurls, Htopics. reflexivity.
Qed.

Lemma main_process_papers_runs_without_input_witness :
  Main.process_papers Sample.env Sample.untyped [] "{}" []
  = ([EvRunSystem [] (PList []) (PList []) (PList [])],
     inr (Main.Result {| Main.synthesis := "";
                         Main.synthesis_audio := None;
                         Main.citations := [] |})).
Proof.
  apply (main_process_papers_runs_without_input Sample.env Sample.untyped
           "{}" [] [] []); reflexivity.
Defined.

(** The same request at the endpoint of api.py. *)
Example api_process_papers_without_input :
  Api.process_papers Sample.env Sample.untyped None "{}" []
  = ([], inl (HTTPException 400
                "At least one input type (PDFs, DOIs, or URLs) is required")).
Proof. reflexivity. Qed.

(* ------------------------------------------------------------------ *)
(** ** Further properties of the code *)
(* ------------------------------------------------------------------ *)

(** *** Topic classification: edge cases *)

(** A scan counts at most one occurrence per position. *)
Lemma count_from_at_most_length (sub : string) :
  forall s skip, PyStr.count_from sub s skip <= String.length s.
Proof.
  induction s as [|c s IH]; intros skip; cbn [PyStr.count_from String.length].
  - lia.
  - destruct skip as [|skip].
    + destruct (String.prefix sub (String c s)).
      * specialize (IH (String.length sub - 1)). lia.
      * specialize (IH 0). lia.
    + specialize (IH skip). lia.
Qed.

Lemma lower_empty (s : string) : PyStr.lower s = EmptyString -> s = EmptyString.
Proof. destruct s; [reflexivity | discriminate]. Qed.

(** The empty label counts once more than the text is long; any other
    label counts at most the length of the text. *)
Lemma topic_count_empty (text : string) :
  Main.topic_count text "" = S (String.length (PyStr.lower text)).
Proof. reflexivity. Qed.

Lemma topic_count_nonempty (text topic : string) :
  topic <> EmptyString ->
  Main.topic_count text topic <= String.length (PyStr.lower text).
Proof.
  intros Htopic. unfold Main.topic_count, PyStr.count.
  destruct (PyStr.lower topic) eqn:Hlower.
  - apply lower_empty in Hlower. contradiction.
  - apply count_from_at_most_length.
Qed.

Lemma classify_topic_empty_label (text : string) (topics : list string) :
  In EmptyString topics ->
  Main.classify_topic text topics = EmptyString.
Proof.
  destruct topics as [|first rest]; [intros []|]. intros Hin.
  unfold Main.classify_topic.
  destruct (max_from_first_max (Main.topic_count text) rest first)
    as (i & _ & Hmax & _).
  specialize (Hmax EmptyString Hin). rewrite topic_count_empty in Hmax.
  destruct (String.string_dec (max_from (Main.topic_count text) first rest) EmptyString)
    as [Hbest|Hbest]; [exact Hbest|].
  pose proof (topic_count_nonempty text _ Hbest). lia.
Qed.

(** X1.  An empty label among the topics always wins: whatever the text
    and the other labels, [classify_topic] returns the empty string, since
    the empty string occurs once more often than the text is long and no
    other label can. *)
Theorem classify_topic_empty_label_wins (text : string) (topics : list string) :
  In EmptyString topics ->
  Main.classify_topic text topics = EmptyString
  /\ (forall t, t <> EmptyString ->
                PyStr.count (PyStr.lower text) (PyStr.lower t)
                < PyStr.count (PyStr.lower text) (PyStr.lower EmptyString)).
Proof.
  intros Hin. split; [apply classify_topic_empty_label, Hin|].
  intros t Ht. pose proof (topic_count_nonempty text t Ht) as Hle.
  pose proof (topic_count_empty text) as Hempty.
  unfold Main.topic_count in Hle, Hempty. cbn [PyStr.lower] in *. lia.
Qed.

Lemma classify_topic_empty_label_wins_witness :
  Main.classify_topic "quantum computing with quantum gates"
    ["quantum"; ""; "gates"] = EmptyString.
Proof.
  apply (proj1 (classify_topic_empty_label_wins
                  "quantum computing with quantum gates" ["quantum"; ""; "gates"]
                  (or_intror (or_introl eq_refl)))).
Defined.

(** X2.  When no topic occurs in the text, [classify_topic] returns the
    first topic of the list: it never falls back to ["Unspecified"] once a
    topic is given. *)
Theorem classify_topic_no_occurrence (text first : string) (rest : list string) :
  (forall t, In t (first :: rest) ->
             PyStr.count (PyStr.lower text) (PyStr.lower t) = 0) ->
  Main.classify_topic text (first :: rest) = first.
Proof.
  intros Hnone. unfold Main.classify_topic.
  destruct (max_from_first_max (Main.topic_count text) rest first)
    as (i & Hi & Hmax & Hbefore).
  destruct i as [|i].
  - cbn in Hi. injection Hi as Hi. symmetry. exact Hi.
  - specialize (Hbefore 0 first (Nat.lt_0_succ i) eq_refl).
    apply nth_error_In in Hi.
    assert (Hzero : Main.topic_count text (max_from (Main.topic_count text) first rest) = 0)
      by (apply Hnone, Hi).
    lia.
Qed.

Lemma classify_topic_no_occurrence_witness :
  Main.classify_topic "a text about frogs" ["physics"; "chemistry"] = "physics".
Proof.
  apply classify_topic_no_occurrence.
  intros t [<-|[<-|[]]]; reflexivity.
Defined.

(** Lower-casing twice is lower-casing once. *)
Lemma lower_char_idempotent (c : ascii) :
  PyStr.lower_char (PyStr.lower_char c) = PyStr.lower_char c.
Proof. destruct c as [[] [] [] [] [] [] [] []]; reflexivity. Qed.

Lemma lower_idempotent (s : string) : PyStr.lower (PyStr.lower s) = PyStr.lower s.
Proof.
  induction s as [|c s IH]; [reflexivity|].
  cbn. rewrite lower_char_idempotent, IH. reflexivity.
Qed.

Lemma max_from_map {A : Type} (key : A -> nat) (f : A -> A) :
  (forall x, key (f x) = key x) ->
  forall rest first,
    max_from key (f first) (map f rest) = f (max_from key first rest).
Proof.
  intros Hkey. induction rest as [|x rest IH]; intros first; [reflexivity|].
  cbn [map max_from]. rewrite !Hkey.
  destruct (key first <? key x); apply IH.
Qed.

(** X3.  The classification is blind to case on both sides: the
    lower-cased text is classified as the text is, and lower-casing the
    labels lower-cases the answer (for at least one label). *)
Theorem classify_topic_ignores_case (text first : string) (rest : list string) :
  Main.classify_topic (PyStr.lower text) (first :: rest)
  = Main.classify_topic text (first :: rest)
  /\ Main.classify_topic text (map PyStr.lower (first :: rest))
     = PyStr.lower (Main.classify_topic text (first :: rest)).
Proof.
  unfold Main.classify_topic. split.
  - replace (Main.topic_count (PyStr.lower text)) with (Main.topic_count text);
      [reflexivity|].
    unfold Main.topic_count. rewrite lower_idempotent. reflexivity.
  - cbn [map]. apply max_from_map. intros t.
    unfold Main.topic_count. rewrite lower_idempotent. reflexivity.
Qed.

(** *** Trimming, and what the model is given *)

Lemma rstrip_idempotent (s : string) : PyStr.rstrip (PyStr.rstrip s) = PyStr.rstrip s.
Proof.
  induction s as [|c s IH]; [reflexivity|].
  cbn [PyStr.rstrip]. destruct (PyStr.rstrip s) as [|d r] eqn:Hrest.
  - destruct (PyStr.is_space c) eqn:Hc; [reflexivity|].
    cbn [PyStr.rstrip]. rewrite Hc. reflexivity.
  - cbn [PyStr.rstrip]. cbn [PyStr.rstrip] in IH.
    destruct (PyStr.rstrip r) as [|d' r'] eqn:Hr.
    + destruct (PyStr.is_space d); [discriminate|].
      injection IH as <-. reflexivity.
    + injection IH as <-. reflexivity.
Qed.

Lemma lstrip_starts_visible (s : string) : starts_visible (PyStr.lstrip s).
Proof.
  induction s as [|c s IH]; [exact I|].
  cbn [PyStr.lstrip]. destruct (PyStr.is_space c) eqn:Hc; [exact IH | exact Hc].
Qed.

Lemma lstrip_of_visible (s : string) : starts_visible s -> PyStr.lstrip s = s.
Proof.
  destruct s as [|c s]; [reflexivity|]. cbn. intros ->. reflexivity.
Qed.

Lemma rstrip_starts_visible (s : string) :
  starts_visible s -> starts_visible (PyStr.rstrip s).
Proof.
  destruct s as [|c s]; [intros _; exact I|]. cbn [starts_visible PyStr.rstrip].
  intros Hc. destruct (PyStr.rstrip s); [rewrite Hc|]; exact Hc.
Qed.

(** Trimming a trimmed string changes nothing. *)
Lemma strip_idempotent (s : string) : PyStr.strip (PyStr.strip s) = PyStr.strip s.
Proof.
  unfold PyStr.strip.
  rewrite (lstrip_of_visible _ (rstrip_starts_visible _ (lstrip_starts_visible s))).
  apply rstrip_idempotent.
Qed.

(** X4.  Whatever the text, [generate_summary] does not raise and asks the
    model exactly once; every paragraph it hands over is trimmed and longer
    than 100 characters; and when the model raises, the summary is the
    placeholder. *)
Theorem generate_summary_total (env : Env) (text : string) (h : history) :
  exists paragraphs ok summary,
    Main.generate_summary env text h
    = (EvSummaryPipeline paragraphs ok :: h, inr summary)
    /\ Forall (fun p => 100 < String.length p /\ PyStr.strip p = p) paragraphs
    /\ (ok = false -> summary = "Summary unavailable.").
Proof.
  pose proof (generate_summary_run env text h) as Hrun. cbv zeta in Hrun.
  eexists. eexists. eexists. split; [exact Hrun|]. split.
  - apply Forall_forall. intros p Hp.
    apply in_map_iff in Hp. destruct Hp as (q & <- & Hq).
    apply filter_In in Hq. destruct Hq as [_ Hlong].
    apply Nat.ltb_lt in Hlong. split; [exact Hlong | apply strip_idempotent].
  - destruct (summary_pipeline env h _ true 200%Z 50%Z); [reflexivity | discriminate].
Qed.

(** *** The calls of a run *)

Lemma speech_calls_app (later earlier : history) :
  speech_calls (later ++ earlier) = speech_calls earlier ++ speech_calls later.
Proof.
  unfold speech_calls. rewrite flat_map_app, rev_app_distr. reflexivity.
Qed.

Lemma model_calls_app (later earlier : history) :
  model_calls (later ++ earlier) = model_calls earlier ++ model_calls later.
Proof.
  unfold model_calls. rewrite flat_map_app, rev_app_distr. reflexivity.
Qed.

Lemma grows_nothing (acc : Main.Acc) (new : history) :
  speech_calls new = [] -> model_calls new = [] -> grows acc new acc.
Proof.
  intros Hspeech Hmodel. exists [], []. rewrite Hspeech, Hmodel, !app_nil_r.
  destruct acc; repeat split.
Qed.

Lemma grows_then (acc acc1 acc2 : Main.Acc) (new1 new2 : history) :
  grows acc new1 acc1 -> grows acc1 new2 acc2 -> grows acc (new2 ++ new1) acc2.
Proof.
  intros (s1 & c1 & Hlen1 & -> & Hspeech1 & Hmodel1)
         (s2 & c2 & Hlen2 & -> & Hspeech2 & Hmodel2).
  exists (s1 ++ s2), (c1 ++ c2). cbn [fst snd].
  rewrite speech_calls_app, model_calls_app, Hspeech1, Hspeech2, map_app.
  rewrite !length_app, <- !app_assoc. repeat split; lia.
Qed.

Lemma steps_grow {A : Type} (items : list A) (acc acc' : Main.Acc) (new : history) :
  Steps (fun _ => grows) items acc new acc' -> grows acc new acc'.
Proof.
  induction 1 as [acc | x rest acc acc1 acc2 new1 new2 Hstep _ IH].
  - apply grows_nothing; reflexivity.
  - eapply grows_then; eassumption.
Qed.

Section TurnsWithCalls.

Variable env : Env.
Variable topic_list : list string.

Lemma process_pdf_grows (pdf_path : string) (acc : Main.Acc) (h h' : history)
    (acc' : Main.Acc) :
  Main.process_pdf env topic_list pdf_path acc h = (h', inr acc') ->
  exists new, h' = new ++ h /\ grows acc new acc'.
Proof.
  destruct acc as [all_summaries citations].
  unfold Main.process_pdf, bind.
  use_run (extract_text_from_pdf_run env pdf_path h).
  destruct (pdf_reader env h pdf_path) as [e|pages]; [discriminate|].
  use_run (generate_summary_run env). use_run (generate_audio_run env).
  match goal with
  | |- context [gtts_save env ?h1 ?t ?l ?p] => destruct (gtts_save env h1 t l p)
  end; [discriminate|].
  unfold ret. intros [= <- <-].
  eexists [_; _; _]. split; [reflexivity|].
  eexists [_], [_]. repeat split.
Qed.

Lemma process_url_grows (url : string) (acc : Main.Acc) (h h' : history)
    (acc' : Main.Acc) :
  Main.process_url env topic_list url acc h = (h', inr acc') ->
  exists new, h' = new ++ h /\ grows acc new acc'.
Proof.
  destruct acc as [all_summaries citations].
  unfold Main.process_url, bind.
  use_run (fetch_url_text_run env url h).
  use_run (generate_summary_run env). use_run (generate_audio_run env).
  match goal with
  | |- context [gtts_save env ?h1 ?t ?l ?p] => destruct (gtts_save env h1 t l p)
  end; [discriminate|].
  unfold ret. intros [= <- <-].
  eexists [_; _; _]. split; [reflexivity|].
  eexists [_], [_]. repeat split.
Qed.

Lemma process_doi_grows (doi : string) (acc : Main.Acc) (h h' : history)
    (acc' : Main.Acc) :
  Main.process_doi env topic_list doi acc h = (h', inr acc') ->
  exists new, h' = new ++ h /\ grows acc new acc'.
Proof.
  destruct acc as [all_summaries citations].
  unfold Main.process_doi, bind.
  destruct (resolve_doi_run env doi h) as [Hhistory _].
  destruct (Main.resolve_doi env doi h) as [h1 [e|metadata]]; [discriminate|].
  cbn [fst] in Hhistory. subst h1.
  destruct (dict_has "error" metadata); cbn [negb].
  - unfold ret. intros [= <- <-].
    eexists [_]. split; [reflexivity|]. apply grows_nothing; reflexivity.
  - unfold lift.
    repeat match goal with
           | |- context [match ?scrutinee with inl _ => _ | inr _ => _ end] =>
               destruct scrutinee; [discriminate|]
           end.
    use_run (generate_summary_run env). use_run (generate_audio_run env).
    match goal with
    | |- context [gtts_save env ?h1 ?t ?l ?p] => destruct (gtts_save env h1 t l p)
    end; [discriminate|].
    unfold ret. intros [= <- <-].
    eexists [_; _; _]. split; [reflexivity|].
    eexists [_], [_]. repeat split.
Qed.

Lemma collect_grows (pdf_files doi_list urls : list string) (h h' : history)
    (acc : Main.Acc) :
  Main.collect env pdf_files topic_list doi_list urls h = (h', inr acc) ->
  exists new, h' = new ++ h /\ grows ([], []) new acc.
Proof.
  unfold Main.collect, bind.
  destruct (for_each pdf_files _ _ h) as [h1 [e|acc1]] eqn:Hpdfs; [discriminate|].
  destruct (for_each doi_list _ _ h1) as [h2 [e|acc2]] eqn:Hdois; [discriminate|].
  intros Hurls.
  apply (for_each_steps _ (fun _ => grows) process_pdf_grows) in Hpdfs.
  apply (for_each_steps _ (fun _ => grows) process_doi_grows) in Hdois.
  apply (for_each_steps _ (fun _ => grows) process_url_grows) in Hurls.
  destruct Hpdfs as (new1 & -> & Hpdfs). apply steps_grow in Hpdfs.
  destruct Hdois as (new2 & -> & Hdois). apply steps_grow in Hdois.
  destruct Hurls as (new3 & -> & Hurls). apply steps_grow in Hurls.
  exists (new3 ++ new2 ++ new1). split; [rewrite !app_assoc; reflexivity|].
  eapply grows_then; [|eassumption]. eapply grows_then; eassumption.
Qed.

End TurnsWithCalls.

(** X5.  In a run that returns, the speech engine was called for the
    audio file of each citation, in the order of the citations, then for
    the synthesis audio when there is one, and no call failed; the model
    was asked exactly as often. *)
Theorem run_system_calls (env : Env)
    (pdf_files topic_list doi_list urls : list string)
    (h h' : history) (result : Main.PipelineResult) :
  Main.run_system env pdf_files topic_list doi_list urls h = (h', inr result) ->
  exists new,
    h' = new ++ h
    /\ speech_calls new
       = map (fun c => (Main.audio c, true)) (Main.citations result)
         ++ match Main.synthesis_audio result with
            | Some path => [(path, true)]
            | None => []
            end
    /\ List.length (model_calls new) = List.length (speech_calls new).
Proof.
  unfold Main.run_system, bind.
  destruct (Main.collect env pdf_files topic_list doi_list urls h)
    as [h1 [e|[all_summaries citations]]] eqn:Hcollect; [discriminate|].
  apply collect_grows in Hcollect.
  destruct Hcollect as (new & -> & summaries & added & Hlen & Hacc & Hspeech & Hmodel).
  cbn [fst snd app] in Hacc. injection Hacc as -> ->.
  destruct summaries as [|summary summaries].
  - unfold ret. intros [= <- <-]. exists new.
    cbn [Main.citations Main.synthesis_audio].
    rewrite Hspeech, app_nil_r, length_map. repeat split. exact Hmodel.
  - unfold Main.synthesize_across_papers.
    use_run (generate_summary_run env). use_run (generate_audio_run env).
    match goal with
    | |- context [gtts_save env ?h1 ?t ?l ?p] => destruct (gtts_save env h1 t l p)
    end; [discriminate|].
    unfold ret. intros [= <- <-].
    match goal with
    | |- exists _, ?a :: ?b :: _ = _ /\ _ => exists ([a; b] ++ new)
    end.
    cbn [Main.citations Main.synthesis_audio].
    rewrite speech_calls_app, model_calls_app, Hspeech.
    rewrite !length_app, length_map, Hmodel. repeat split.
Qed.

Lemma run_system_calls_witness :
  exists new,
    fst Sample.run = new ++ []
    /\ speech_calls new
       = map (fun c => (Main.audio c, true))
             (Main.citations (Sample.result_of Sample.run))
         ++ match Main.synthesis_audio (Sample.result_of Sample.run) with
            | Some path => [(path, true)]
            | None => []
            end
    /\ List.length (model_calls new) = List.length (speech_calls new).
Proof.
  apply (run_system_calls Sample.env
           ["papers/a.pdf"] ["hello"; "page"]
           ["10.1/known"; "10.1/unknown"] ["https://example.org/talk"]
           [] (fst Sample.run) (Sample.result_of Sample.run)
           ltac:(vm_compute; reflexivity)).
Defined.

(** *** What a citation holds *)

Lemma has_char_app (c : ascii) (a b : string) :
  PyStr.has_char c (a ++ b) = PyStr.has_char c a || PyStr.has_char c b.
Proof.
  induction a as [|d a IH]; [reflexivity|].
  cbn. rewrite IH. apply orb_assoc.
Qed.

(** A replacement brings in no character that neither the string nor the
    new text has. *)
Lemma replace_from_keeps_out (c : ascii) (old new : string) :
  PyStr.has_char c new = false ->
  forall s skip,
    PyStr.has_char c s = false ->
    PyStr.has_char c (PyStr.replace_from old new s skip) = false.
Proof.
  intros Hnew. induction s as [|d s IH]; intros skip Hs; [reflexivity|].
  cbn [PyStr.has_char] in Hs. apply orb_false_iff in Hs. destruct Hs as [Hd Hs].
  cbn [PyStr.replace_from]. destruct skip as [|skip]; [|apply IH, Hs].
  destruct (String.prefix old (String d s)).
  - rewrite has_char_app, Hnew. apply IH, Hs.
  - cbn [PyStr.has_char]. rewrite Hd. apply IH, Hs.
Qed.

Lemma basename_from_no_slash (p : string) :
  forall cur,
    PyStr.has_char "/" cur = false ->
    PyStr.has_char "/" (PyStr.basename_from p cur) = false.
Proof.
  induction p as [|c p IH]; intros cur Hcur; [exact Hcur|].
  cbn [PyStr.basename_from]. destruct (Ascii.eqb c "/") eqn:Hc.
  - apply IH. reflexivity.
  - apply IH. rewrite has_char_app, Hcur. cbn [PyStr.has_char orb].
    rewrite Ascii.eqb_sym, Hc. reflexivity.
Qed.

Lemma pdf_filename_no_slash (pdf_path : string) :
  PyStr.has_char "/" (pdf_filename pdf_path) = false.
Proof.
  unfold pdf_filename, PyStr.replace.
  apply replace_from_keeps_out; [reflexivity|].
  apply basename_from_no_slash. reflexivity.
Qed.

Lemma doi_filename_no_slash (doi : string) :
  PyStr.has_char "/" (doi_filename doi) = false.
Proof. apply replace_slash_leaves_none. Qed.

(** The first maximum is one of the items. *)
Lemma max_from_in {A : Type} (key : A -> nat) (rest : list A) (first : A) :
  In (max_from key first rest) (first :: rest).
Proof.
  destruct (max_from_first_max key rest first) as (i & Hi & _).
  apply nth_error_In in Hi. exact Hi.
Qed.

Lemma classify_topic_in (summary : string) (topic_list : list string) :
  match topic_list with
  | [] => Main.classify_topic summary topic_list = "Unspecified"
  | _ :: _ => In (Main.classify_topic summary topic_list) topic_list
  end.
Proof.
  destruct topic_list as [|first rest]; [reflexivity|]. apply max_from_in.
Qed.

(** The citations of items whose names have no slash. *)
Lemma cited_well_formed (topic_list : list string) (name : string -> string)
    (P : Main.Citation -> Prop) (srcs summaries : list string) :
  (forall src summary, P (cite topic_list name src summary)) ->
  Forall P (cited topic_list name srcs summaries).
Proof.
  intros HP. unfold cited. apply Forall_forall. intros c Hc.
  apply in_map_iff in Hc. destruct Hc as ([src summary] & <- & _). apply HP.
Qed.

(** X6.  In the result of a run, the topic of every citation is one of
    the given topics, or ["Unspecified"] when none was given; and the audio
    of every citation is a file directly in the output directory: no
    locator, whatever slashes it holds, leads elsewhere.  The audio of the
    synthesis, when there is one, is [outputs/final_synthesis.mp3]. *)
Theorem run_system_citations_well_formed (env : Env)
    (pdf_files topic_list doi_list urls : list string)
    (h h' : history) (result : Main.PipelineResult) :
  Main.run_system env pdf_files topic_list doi_list urls h = (h', inr result) ->
  Forall (fun c =>
            match topic_list with
            | [] => Main.topic c = "Unspecified"
            | _ :: _ => In (Main.topic c) topic_list
            end
            /\ exists name,
                PyStr.has_char "/" name = false
                /\ Main.audio c = ("outputs/" ++ name ++ ".mp3")%string)
         (Main.citations result)
  /\ (Main.synthesis_audio result = None
      \/ Main.synthesis_audio result = Some "outputs/final_synthesis.mp3").
Proof.
  intros Hrun. split.
  - apply run_system_shape in Hrun.
    destruct Hrun as (new & statuses & from_pdfs & from_dois & from_urls
                      & _ & _ & _ & _ & _ & _ & -> & _).
    rewrite !Forall_app. repeat split; apply cited_well_formed;
      intros src summary; (split; [apply classify_topic_in|]);
      eexists; (split; [|apply path_join_output_dir]).
    + apply pdf_filename_no_slash.
    + apply pdf_filename_no_slash.
    + apply doi_filename_no_slash.
    + apply doi_filename_no_slash.
    + apply url_filename_no_slash.
    + apply url_filename_no_slash.
  - revert Hrun. unfold Main.run_system, bind.
    destruct (Main.collect env pdf_files topic_list doi_list urls h)
      as [h1 [e|[[|summary summaries] citations]]]; [discriminate| |].
    + unfold ret. intros [= <- <-]. left. reflexivity.
    + unfold Main.synthesize_across_papers.
      use_run (generate_summary_run env). use_run (generate_audio_run env).
      match goal with
      | |- context [gtts_save env ?h1 ?t ?l ?p] => destruct (gtts_save env h1 t l p)
      end; [discriminate|].
      unfold ret. intros [= <- <-]. right. reflexivity.
Qed.

Lemma run_system_citations_well_formed_witness :
  Forall (fun c =>
            In (Main.topic c) ["hello"; "page"]
            /\ exists name,
                PyStr.has_char "/" name = false
                /\ Main.audio c = ("outputs/" ++ name ++ ".mp3")%string)
         (Main.citations (Sample.result_of Sample.run))
  /\ (Main.synthesis_audio (Sample.result_of Sample.run) = None
      \/ Main.synthesis_audio (Sample.result_of Sample.run)
         = Some "outputs/final_synthesis.mp3").
Proof.
  apply (run_system_citations_well_formed Sample.env
           ["papers/a.pdf"] ["hello"; "page"]
           ["10.1/known"; "10.1/unknown"] ["https://example.org/talk"]
           [] (fst Sample.run) (Sample.result_of Sample.run)
           ltac:(vm_compute; reflexivity)).
Defined.

(** *** Names that meet *)

Lemma replace_char_app (old new : ascii) (a b : string) :
  PyStr.replace (a ++ b) (String old EmptyString) (String new EmptyString)
  = (PyStr.replace a (String old EmptyString) (String new EmptyString)
     ++ PyStr.replace b (String old EmptyString) (String new EmptyString))%string.
Proof.
  unfold PyStr.replace. induction a as [|c a IH]; [reflexivity|].
  cbn [String.append PyStr.replace_from String.prefix String.length Nat.sub].
  destruct (ascii_dec old c).
  - rewrite !prefix_empty, IH. reflexivity.
  - rewrite IH. reflexivity.
Qed.

(** X7.  Distinct locators can name the same audio file, and the later
    item then overwrites the file of the earlier one.  Two DOIs that differ
    by a slash against an underscore share their file; so do the secure
    and the plain address of the same page. *)
Theorem audio_names_meet (before after rest : string) :
  (before ++ "/" ++ after <> before ++ "_" ++ after)%string
  /\ PyStr.replace (before ++ "/" ++ after) "/" "_"
     = PyStr.replace (before ++ "_" ++ after) "/" "_"
  /\ Main.url_filename ("https://" ++ rest) = Main.url_filename ("http://" ++ rest).
Proof.
  split; [|split].
  - intros Heq. induction before as [|c before IH].
    + discriminate Heq.
    + injection Heq as Heq. apply IH, Heq.
  - rewrite !replace_char_app. reflexivity.
  - unfold Main.url_filename, PyStr.replace. cbn. rewrite !prefix_empty. reflexivity.
Qed.

(** *** Failures that end a run *)

Lemma for_each_app {A S : Type} (body : A -> S -> M S) (l1 l2 : list A) :
  forall s h,
    for_each (l1 ++ l2) body s h
    = match for_each l1 body s h with
      | (h1, inr s1) => for_each l2 body s1 h1
      | (h1, inl e) => (h1, inl e)
      end.
Proof.
  induction l1 as [|x l1 IH]; intros s h; [reflexivity|].
  cbn [app for_each]. unfold bind.
  destruct (body x s h) as [h1 [e|s1]]; [reflexivity | apply IH].
Qed.

(** X8.  One unreadable PDF ends the whole run.  When the PDFs before it
    went through and the reader raises on it, [run_system] raises the same
    exception right after that read: the PDFs after it, the DOIs and the
    URLs are never touched, and what was done for the PDFs before is
    lost. *)
Theorem run_system_stops_at_unreadable_pdf (env : Env)
    (before after topic_list doi_list urls : list string) (pdf_path : string)
    (h h1 : history) (acc : Main.Acc) (e : exn) :
  Main.collect env before topic_list [] [] h = (h1, inr acc) ->
  pdf_reader env h1 pdf_path = inl e ->
  Main.run_system env (before ++ pdf_path :: after) topic_list doi_list urls h
  = (EvPdfReader pdf_path false :: h1, inl e).
Proof.
  intros Hbefore Hread.
  unfold Main.collect, bind in Hbefore. cbn [for_each] in Hbefore.
  unfold Main.run_system, Main.collect, bind. rewrite for_each_app.
  destruct (for_each before (Main.process_pdf env topic_list) ([], []) h)
    as [h0 [e0|acc0]]; [discriminate|].
  unfold ret in Hbefore. injection Hbefore as -> ->.
  cbn [for_each]. unfold bind. destruct acc as [all_summaries citations].
  unfold Main.process_pdf, bind.
  use_run (extract_text_from_pdf_run env pdf_path h1). rewrite Hread. reflexivity.
Qed.

Lemma run_system_stops_at_unreadable_pdf_witness :
  Main.run_system Sample.offline ([] ++ "a.pdf" :: ["b.pdf"]) []
    ["10.1/known"] ["https://example.org/talk"] []
  = ([EvPdfReader "a.pdf" false], inl (LibraryError "cannot read PDF")).
Proof.
  apply (run_system_stops_at_unreadable_pdf Sample.offline [] ["b.pdf"] []
           ["10.1/known"] ["https://example.org/talk"] "a.pdf" [] [] ([], []));
    reflexivity.
Defined.

Section SilentEngine.

Variable env : Env.
Variable topic_list : list string.

(** The speech engine fails on every call. *)
Hypothesis speech_fails :
  forall h text lang path, exists e, gtts_save env h text lang path = inl e.

Lemma process_pdf_silent (pdf_path : string) (acc : Main.Acc) (h h' : history)
    (acc' : Main.Acc) :
  Main.process_pdf env topic_list pdf_path acc h = (h', inr acc') ->
  exists new : history, h' = new ++ h /\ False.
Proof.
  destruct acc as [all_summaries citations].
  unfold Main.process_pdf, bind.
  use_run (extract_text_from_pdf_run env pdf_path h).
  destruct (pdf_reader env h pdf_path) as [e|pages]; [discriminate|].
  use_run (generate_summary_run env). use_run (generate_audio_run env).
  match goal with
  | |- context [gtts_save env ?h1 ?t ?l ?p] =>
      destruct (speech_fails h1 t l p) as [e ->]
  end.
  discriminate.
Qed.

Lemma process_url_silent (url : string) (acc : Main.Acc) (h h' : history)
    (acc' : Main.Acc) :
  Main.process_url env topic_list url acc h = (h', inr acc') ->
  exists new : history, h' = new ++ h /\ False.
Proof.
  destruct acc as [all_summaries citations].
  unfold Main.process_url, bind.
  use_run (fetch_url_text_run env url h).
  use_run (generate_summary_run env). use_run (generate_audio_run env).
  match goal with
  | |- context [gtts_save env ?h1 ?t ?l ?p] =>
      destruct (speech_fails h1 t l p) as [e ->]
  end.
  discriminate.
Qed.

Lemma process_doi_silent (doi : string) (acc : Main.Acc) (h h' : history)
    (acc' : Main.Acc) :
  Main.process_doi env topic_list doi acc h = (h', inr acc') ->
  exists new : history, h' = new ++ h /\ acc' = acc.
Proof.
  destruct acc as [all_summaries citations].
  unfold Main.process_doi, bind.
  destruct (resolve_doi_run env doi h) as [Hhistory _].
  destruct (Main.resolve_doi env doi h) as [h1 [e|metadata]]; [discriminate|].
  cbn [fst] in Hhistory. subst h1.
  destruct (dict_has "error" metadata); cbn [negb].
  - unfold ret. intros [= <- <-]. eexists [_]. split; reflexivity.
  - unfold lift.
    repeat match goal with
           | |- context [match ?scrutinee with inl _ => _ | inr _ => _ end] =>
               destruct scrutinee; [discriminate|]
           end.
    use_run (generate_summary_run env). use_run (generate_audio_run env).
    match goal with
    | |- context [gtts_save env ?h1 ?t ?l ?p] =>
        destruct (speech_fails h1 t l p) as [e ->]
    end.
    discriminate.
Qed.

Lemma steps_impossible (items : list string) (acc acc' : Main.Acc) (new : history) :
  Steps (fun _ _ _ _ => False) items acc new acc' -> items = [] /\ acc' = acc.
Proof. destruct 1; [split; reflexivity | contradiction]. Qed.

Lemma steps_unchanged (items : list string) (acc acc' : Main.Acc) (new : history) :
  Steps (fun _ a _ a' => a' = a) items acc new acc' -> acc' = acc.
Proof. induction 1; congruence. Qed.

Lemma collect_silent (pdf_files doi_list urls : list string) (h h' : history)
    (acc : Main.Acc) :
  Main.collect env pdf_files topic_list doi_list urls h = (h', inr acc) ->
  pdf_files = [] /\ urls = [] /\ acc = ([], []).
Proof.
  unfold Main.collect, bind.
  destruct (for_each pdf_files _ _ h) as [h1 [e|acc1]] eqn:Hpdfs; [discriminate|].
  destruct (for_each doi_list _ _ h1) as [h2 [e|acc2]] eqn:Hdois; [discriminate|].
  intros Hurls.
  apply (for_each_steps _ _ process_pdf_silent) in Hpdfs.
  apply (for_each_steps _ _ process_doi_silent) in Hdois.
  apply (for_each_steps _ _ process_url_silent) in Hurls.
  destruct Hpdfs as (new1 & _ & Hpdfs). apply steps_impossible in Hpdfs.
  destruct Hdois as (new2 & _ & Hdois). apply steps_unchanged in Hdois.
  destruct Hurls as (new3 & _ & Hurls). apply steps_impossible in Hurls.
  destruct Hpdfs as [-> ->]. destruct Hurls as [-> ->]. subst acc2.
  repeat split.
Qed.

End SilentEngine.

(** X9.  Without a working speech engine nothing is ever cited.  If every
    speech call fails, a run that returns had no PDF and no URL, found none
    of its DOIs, and its result is the empty one: any item that reaches the
    audio step makes the run raise instead. *)
Theorem run_system_needs_speech (env : Env)
    (pdf_files topic_list doi_list urls : list string)
    (h h' : history) (result : Main.PipelineResult) :
  (forall h0 text lang path, exists e, gtts_save env h0 text lang path = inl e) ->
  Main.run_system env pdf_files topic_list doi_list urls h = (h', inr result) ->
  pdf_files = [] /\ urls = []
  /\ result = {| Main.synthesis := "";
                 Main.synthesis_audio := None;
                 Main.citations := [] |}.
Proof.
  intros Hsilent. unfold Main.run_system, bind.
  destruct (Main.collect env pdf_files topic_list doi_list urls h)
    as [h1 [e|acc]] eqn:Hcollect; [discriminate|].
  apply (collect_silent env topic_list Hsilent) in Hcollect.
  destruct Hcollect as (-> & -> & ->).
  unfold ret. intros [= <- <-]. repeat split.
Qed.

Lemma run_system_needs_speech_witness :
  ([] : list string) = [] /\ ([] : list string) = []
  /\ Sample.result_of (Main.run_system Worlds.silent [] ["hello"] ["10.1/unknown"] [] [])
     = {| Main.synthesis := "";
          Main.synthesis_audio := None;
          Main.citations := [] |}.
Proof.
  apply (run_system_needs_speech Worlds.silent [] ["hello"] ["10.1/unknown"] [] []
           (fst (Main.run_system Worlds.silent [] ["hello"] ["10.1/unknown"] [] []))).
  - intros h0 text lang path. eexists. reflexivity.
  - vm_compute. reflexivity.
Defined.

(** *** The endpoints, on any request *)

(** X10.  The endpoint of api.py raises nothing but [HTTPException]:
    whatever the request and whatever fails behind it, the call returns a
    result or raises an HTTP error. *)
Theorem api_process_papers_raises_http_only (env : Env)
    (run_system_untyped : list string -> pyval -> pyval -> pyval -> M Main.PipelineResult)
    (pdf_files : option (list UploadFile)) (data : string) (h : history) :
  match snd (Api.process_papers env run_system_untyped pdf_files data h) with
  | inr _ => True
  | inl e => is_HTTPException e = true
  end.
Proof.
  unfold Api.process_papers.
  match goal with
  | |- context [try_except ?body ?handler h] =>
      unfold try_except at 1; destruct (body h) as [h1 [e|result]]
  end; [|exact I].
  destruct (is_HTTPException e) eqn:He; cbn; [exact He | reflexivity].
Qed.

(** X11.  The endpoint of main.py never raises: every failure, of the
    payload, of a file write or of the pipeline, comes back as the
    dictionary with the key [error], in a normal response. *)
Theorem main_process_papers_never_raises (env : Env)
    (run_system_untyped : list string -> pyval -> pyval -> pyval -> M Main.PipelineResult)
    (pdf_files : list UploadFile) (data : string) (h : history) :
  exists h' reply,
    Main.process_papers env run_system_untyped pdf_files data h = (h', inr reply).
Proof.
  unfold Main.process_papers.
  match goal with
  | |- context [try_except ?body ?handler h] =>
      unfold try_except; destruct (body h) as [h1 [e|reply]]
  end; unfold ret; eauto.
Qed.

(** Uploads whose name does not end in [.pdf] are passed over. *)
Lemma save_pdf_skips (env : Env) (files : list UploadFile) :
  Forall (fun f => PyStr.endswith (filename f) ".pdf" = false) files ->
  forall pdf_paths h,
    for_each files (Main.save_pdf env) pdf_paths h = (h, inr pdf_paths).
Proof.
  induction 1 as [|f files Hf _ IH]; intros pdf_paths h; [reflexivity|].
  cbn [for_each]. unfold bind, Main.save_pdf. rewrite Hf. apply IH.
Qed.

(** X12.  The endpoint of main.py silently drops every upload whose name
    does not end in [.pdf] (the test is case-sensitive): a request with
    only such uploads is handled exactly as the request without them, and
    nothing is written. *)
Theorem main_process_papers_drops_other_uploads (env : Env)
    (run_system_untyped : list string -> pyval -> pyval -> pyval -> M Main.PipelineResult)
    (pdf_files : list UploadFile) (data : string) (h : history) :
  Forall (fun f => PyStr.endswith (filename f) ".pdf" = false) pdf_files ->
  Main.process_papers env run_system_untyped pdf_files data h
  = Main.process_papers env run_system_untyped [] data h.
Proof.
  intros Hother. unfold Main.process_papers, try_except, bind, lift.
  destruct (json_loads env data) as [e|json_data]; [reflexivity|].
  repeat split_answer; try reflexivity.
  rewrite (save_pdf_skips env pdf_files Hother). reflexivity.
Qed.

Lemma main_process_papers_drops_other_uploads_witness :
  Main.process_papers Sample.env Sample.untyped
    [{| filename := "PAPER.PDF"; content := "%PDF-1.4" |};
     {| filename := "notes.txt"; content := "hello" |}] "{}" []
  = Main.process_papers Sample.env Sample.untyped [] "{}" [].
Proof.
  apply main_process_papers_drops_other_uploads.
  repeat constructor.
Defined.

(** X13.  The endpoint of main.py stores an upload under the name the
    client sent.  When that name is an absolute path ending in [.pdf], the
    file is written at that very path, outside the output directory, and
    that path is what the pipeline is then given. *)
Theorem main_save_pdf_absolute_name (env : Env) (pdf_file : UploadFile)
    (pdf_paths : list string) (h : history) :
  PyStr.endswith (filename pdf_file) ".pdf" = true ->
  PyStr.startswith (filename pdf_file) "/" = true ->
  let answer := write_file env h (filename pdf_file) (content pdf_file) in
  Main.save_pdf env pdf_file pdf_paths h
  = (EvWriteFile (filename pdf_file) (content pdf_file) (succeeded answer) :: h,
     match answer with
     | inr _ => inr (pdf_paths ++ [filename pdf_file])
     | inl e => inl e
     end).
Proof.
  intros Hpdf Habsolute answer. subst answer.
  unfold Main.save_pdf, PyStr.path_join, bind, call, ret.
  rewrite Hpdf, Habsolute.
  destruct (write_file env h (filename pdf_file) (content pdf_file)); reflexivity.
Qed.

Lemma main_save_pdf_absolute_name_witness :
  Main.save_pdf Sample.env
    {| filename := "/etc/cron.d/job.pdf"; content := "* * * * *" |} [] []
  = ([EvWriteFile "/etc/cron.d/job.pdf" "* * * * *" true],
     inr ["/etc/cron.d/job.pdf"]).
Proof.
  apply (main_save_pdf_absolute_name Sample.env
           {| filename := "/etc/cron.d/job.pdf"; content := "* * * * *" |} [] []);
    reflexivity.
Defined.

(** *** The temporary files of api.py *)

Section TemporaryFiles.

Variable env : Env.

(** A stretch of history that holds nothing but removals of the given
    paths. *)
Lemma clean_up_run (pdf_paths : list string) :
  forall done h,
    (forall p, In p pdf_paths -> In p done) ->
    exists cleanup,
      for_each pdf_paths (Api.clean_up env) tt h = (cleanup ++ h, inr tt)
      /\ Forall (fun ev => exists p ok, ev = EvUnlink p ok /\ In p done) cleanup.
Proof.
  induction pdf_paths as [|p rest IH]; intros done h Hdone.
  - exists []. split; [reflexivity | constructor].
  - cbn [for_each]. unfold bind, Api.clean_up, try_except, Api.unlink_if_exists.
    assert (Hrest : forall q, In q rest -> In q done)
      by (intros q Hq; apply Hdone; right; exact Hq).
    destruct (path_exists env h p).
    + unfold call.
      destruct (IH done (EvUnlink p (succeeded (unlink env h p)) :: h) Hrest)
        as (cleanup & Hrun & Hcleanup).
      exists (cleanup ++ [EvUnlink p (succeeded (unlink env h p))]).
      rewrite <- app_assoc. cbn [app].
      destruct (unlink env h p) as [e|[]]; cbn [succeeded] in *;
        (split; [exact Hrun|]);
        apply Forall_app; (split; [exact Hcleanup|]);
        repeat constructor; eexists; eexists;
        (split; [reflexivity | apply Hdone; left; reflexivity]).
    + destruct (IH done h Hrest) as (cleanup & Hrun & Hcleanup).
      exists cleanup. split; [exact Hrun | exact Hcleanup].
Qed.

(** Each stored upload adds one path. *)
Lemma save_upload_length (files : list UploadFile) :
  forall pdf_paths h h1 saved,
    for_each files (Api.save_upload env) pdf_paths h = (h1, inr saved) ->
    List.length saved = List.length pdf_paths + List.length files.
Proof.
  induction files as [|f files IH]; intros pdf_paths h h1 saved.
  - cbn. intros [= <- <-]. lia.
  - cbn [for_each]. unfold bind at 1.
    destruct (Api.save_upload env f pdf_paths h) as [h0 [e|paths]] eqn:Hsave;
      [discriminate|].
    intros Hrest. apply IH in Hrest. rewrite Hrest. cbn [List.length].
    revert Hsave. unfold Api.save_upload, bind, try_except, call, ret, raise.
    destruct (named_temporary_file env h ".pdf" Api.OUTPUT_DIR) as [e|temp_name];
      [discriminate|].
    destruct (write_file env _ temp_name (content f)) as [e|[]].
    + unfold Api.unlink_if_exists, call, ret.
      destruct (path_exists env _ temp_name); [|discriminate].
      destruct (unlink env _ temp_name); discriminate.
    + intros [= _ <-]. rewrite length_app. cbn. lia.
Qed.

End TemporaryFiles.

(** X14.  The temporary copies of the uploads outlive a failed run.  Once
    the uploads of a request are stored and [run_system] is called: if it
    returns, the endpoint of api.py tries to remove the copies, a removal
    that fails is passed over, and the result is returned all the same; if
    it raises, the endpoint raises at once and no removal is tried, so the
    copies stay in the output directory. *)
Theorem api_process_papers_temporary_files (env : Env)
    (run_system_untyped : list string -> pyval -> pyval -> pyval -> M Main.PipelineResult)
    (files : list UploadFile) (data : string) (payload : dict)
    (pdf_paths : list string) (n_dois n_urls n_topics : nat)
    (h h1 h2 : history) (outcome : exn + Main.PipelineResult) :
  json_loads env data = inr (PDict payload) ->
  files <> [] ->
  for_each files (Api.save_upload env) [] h = (h1, inr pdf_paths) ->
  py_len (dict_get payload "doi_list" (PList [])) = inr n_dois ->
  py_len (dict_get payload "urls" (PList [])) = inr n_urls ->
  py_len (dict_get payload "topic_list" (PList [])) = inr n_topics ->
  Main.invoke_run_system env run_system_untyped pdf_paths
    (dict_get payload "topic_list" (PList []))
    (dict_get payload "doi_list" (PList []))
    (dict_get payload "urls" (PList [])) h1 = (h2, outcome) ->
  match outcome with
  | inr result =>
      exists cleanup,
        Api.process_papers env run_system_untyped (Some files) data h
        = (cleanup ++ h2, inr result)
        /\ Forall (fun ev => exists p ok, ev = EvUnlink p ok /\ In p pdf_paths) cleanup
  | inl e =>
      Api.process_papers env run_system_untyped (Some files) data h
      = (h2, inl (if is_HTTPException e then e
                  else HTTPException 500
                         ("Internal server error: " ++ exn_str env e)%string))
  end.
Proof.
  intros Hloads Hfiles Hsaved Hdois Hurls Htopics Hrun.
  pose proof (save_upload_length env files [] h h1 pdf_paths Hsaved) as Hlen.
  destruct files as [|f files]; [contradiction|].
  destruct pdf_paths as [|p pdf_paths]; [discriminate|].
  unfold Api.process_papers, try_except, bind, lift, raise.
  rewrite Hloads. cbn [py_get ret]. unfold ret at 1. cbn iota.
  rewrite Hsaved. cbn [andb]. rewrite Hdois, Hurls, Htopics, Hrun.
  destruct outcome as [e|result].
  - destruct (is_HTTPException e); reflexivity.
  - destruct (clean_up_run env (p :: pdf_paths) (p :: pdf_paths) h2 (fun _ H => H))
      as (cleanup & Hclean & Hcleanup).
    exists cleanup. rewrite Hclean. split; [reflexivity | exact Hcleanup].
Qed.

Lemma api_process_papers_temporary_files_witness :
  match snd sticky_call with
  | inr result =>
      exists cleanup,
        Api.process_papers Worlds.sticky Sample.untyped (Some [Worlds.upload]) "{}" []
        = (cleanup ++ fst sticky_call, inr result)
        /\ Forall (fun ev => exists p ok,
                     ev = EvUnlink p ok /\ In p ["outputs/tmp0001.pdf"]) cleanup
  | inl e =>
      Api.process_papers Worlds.sticky Sample.untyped (Some [Worlds.upload]) "{}" []
      = (fst sticky_call,
         inl (if is_HTTPException e then e
              else HTTPException 500
                     ("Internal server error: " ++ exn_str Worlds.sticky e)%string))
  end.
Proof.
  apply (api_process_papers_temporary_files Worlds.sticky Sample.untyped
           [Worlds.upload] "{}" [] ["outputs/tmp0001.pdf"] 0 0 0 []
           [EvWriteFile "outputs/tmp0001.pdf" "%PDF-1.4" true;
            EvTempFile (Some "outputs/tmp0001.pdf")]
           (fst sticky_call) (snd sticky_call)); try reflexivity.
  discriminate.
Defined.

(** The same request, spelled out: the removal fails and the result is
    returned. *)
Example api_process_papers_sticky :
  Api.process_papers Worlds.sticky Sample.untyped (Some [Worlds.upload]) "{}" []
  = ([EvUnlink "outputs/tmp0001.pdf" false;
      EvTTS "" "en" "outputs/final_synthesis.mp3" true;
      EvSummaryPipeline [] true;
      EvTTS "" "en" "outputs/tmp0001.mp3" true;
      EvSummaryPipeline [] true;
      EvPdfReader "outputs/tmp0001.pdf" true;
      EvRunSystem ["outputs/tmp0001.pdf"] (PList []) (PList []) (PList []);
      EvWriteFile "outputs/tmp0001.pdf" "%PDF-1.4" true;
      EvTempFile (Some "outputs/tmp0001.pdf")],
     inr {| Main.synthesis := "";
            Main.synthesis_audio := Some "outputs/final_synthesis.mp3";
            Main.citations :=
              [{| Main.source := "outputs/tmp0001.pdf";
                  Main.topic := "Unspecified";
                  Main.audio := "outputs/tmp0001.mp3" |}] |}).
Proof. vm_compute. reflexivity. Qed.

(** *** The stored files *)

Lemma removals_app (later earlier : history) :
  removals (later ++ earlier) = removals earlier ++ removals later.
Proof.
  unfold removals. rewrite flat_map_app, rev_app_distr. reflexivity.
Qed.

Lemma stored_path (filename : string) :
  stored filename
  = if String.prefix "/" filename then filename else ("outputs/" ++ filename)%string.
Proof. reflexivity. Qed.

(** Two names never meet in one file of the output directory. *)
Lemma stored_injective (a b : string) : stored a = stored b -> a = b.
Proof.
  rewrite !stored_path.
  destruct (String.prefix "/" a) eqn:Ha, (String.prefix "/" b) eqn:Hb.
  - intros H; exact H.
  - intros ->. discriminate Ha.
  - intros <-. discriminate Hb.
  - intros H. injection H as H. exact H.
Qed.

Section BulkRemoval.

Variable env : Env.

Lemma delete_entry_audio (f : string) (names : list string) (count : nat)
    (h : history) :
  Files.is_audio_name f = true ->
  for_each (f :: names) (Files.delete_entry env) count h
  = match unlink env h (stored f) with
    | inl e => (EvUnlink (stored f) false :: h, inl e)
    | inr _ => for_each names (Files.delete_entry env) (count + 1)
                 (EvUnlink (stored f) true :: h)
    end.
Proof.
  intros Haudio. cbn [for_each]. unfold bind, Files.delete_entry.
  rewrite Haudio. unfold bind, Files.remove, call, ret. fold (stored f).
  destruct (unlink env h (stored f)) as [e|[]]; reflexivity.
Qed.

Lemma delete_entry_other (f : string) (names : list string) (count : nat)
    (h : history) :
  Files.is_audio_name f = false ->
  for_each (f :: names) (Files.delete_entry env) count h
  = for_each names (Files.delete_entry env) count h.
Proof.
  intros Hother. cbn [for_each]. unfold bind, Files.delete_entry.
  rewrite Hother. reflexivity.
Qed.

(** The loop of the bulk removal: it removes the audio names in the order
    of the listing and stops at the first removal that fails. *)
Lemma delete_entries_run (names : list string) :
  forall count h,
    exists new,
      fst (for_each names (Files.delete_entry env) count h) = new ++ h
      /\ List.length new = List.length (removals new)
      /\ match snd (for_each names (Files.delete_entry env) count h) with
         | inr count' =>
             removals new
             = map (fun f => (stored f, true)) (filter Files.is_audio_name names)
             /\ count' = count + List.length (filter Files.is_audio_name names)
         | inl _ =>
             exists done failed rest,
               filter Files.is_audio_name names = done ++ failed :: rest
               /\ removals new
                  = map (fun f => (stored f, true)) done ++ [(stored failed, false)]
         end.
Proof.
  induction names as [|f names IH]; intros count h.
  - exists []. cbn. repeat split. lia.
  - cbn [filter]. destruct (Files.is_audio_name f) eqn:Haudio.
    + rewrite (delete_entry_audio f names count h Haudio).
      destruct (unlink env h (stored f)) as [e|u]; cbn [fst snd].
      * exists [EvUnlink (stored f) false]. repeat split.
        exists [], f, (filter Files.is_audio_name names). split; reflexivity.
      * destruct (IH (count + 1) (EvUnlink (stored f) true :: h))
          as (new & Hnew & Honly & Hrest).
        exists (new ++ [EvUnlink (stored f) true]).
        rewrite Hnew, <- app_assoc. split; [reflexivity|].
        rewrite removals_app, !length_app.
        cbn [removals flat_map removal rev app List.length].
        split; [lia|].
        destruct (snd (for_each names _ (count + 1) _)) as [e|count'].
        -- destruct Hrest as (done & failed & rest & Hfilter & Hremovals).
           exists (f :: done), failed, rest. rewrite Hfilter, Hremovals.
           split; reflexivity.
        -- destruct Hrest as [Hremovals ->]. rewrite Hremovals.
           split; [reflexivity | cbn; lia].
    + rewrite (delete_entry_other f names count h Haudio). apply IH.
Qed.

End BulkRemoval.

(** X15.  The bulk removal removes exactly the listed names that end in
    [.mp3], [.wav] or [.m4a], in the order of the listing, and nothing
    else.  When every removal succeeds, the count it reports is the number
    of those names.  When a removal fails, it stops there with status 500:
    the files removed before stay removed and no count is reported. *)
Theorem delete_all_audio_files_run (env : Env)
    (listdir : history -> string -> exn + list string)
    (h : history) (names : list string) :
  path_exists env h Api.OUTPUT_DIR = true ->
  listdir h Api.OUTPUT_DIR = inr names ->
  let audio := filter Files.is_audio_name names in
  let run := Files.delete_all_audio_files env listdir h in
  exists new,
    fst run = new ++ h
    /\ List.length new = List.length (removals new)
    /\ match snd run with
       | inr reply =>
           removals new = map (fun f => (stored f, true)) audio
           /\ Files.deleted_count reply = List.length audio
           /\ Files.message reply
              = ("Deleted " ++ Files.decimal (List.length audio) ++ " audio files")%string
       | inl e =>
           exists done failed rest detail,
             audio = done ++ failed :: rest
             /\ removals new
                = map (fun f => (stored f, true)) done ++ [(stored failed, false)]
             /\ e = HTTPException 500 detail
       end.
Proof.
  intros Hdir Hnames audio run. subst audio run.
  destruct (delete_entries_run env names 0 h) as (new & Hnew & Honly & Hrun).
  exists new.
  unfold Files.delete_all_audio_files, try_except, bind, Files.exists_, raise, ret.
  rewrite Hdir, Hnames.
  destruct (for_each names (Files.delete_entry env) 0 h) as [h1 [e|count]];
    cbn [fst snd] in *.
  - repeat split; try assumption.
    destruct Hrun as (done & failed & rest & Hfilter & Hremovals).
    exists done, failed, rest. eexists. repeat split; assumption.
  - destruct Hrun as [Hremovals ->]. repeat split; assumption.
Qed.

Lemma delete_all_audio_files_run_witness :
  exists new,
    fst (Files.delete_all_audio_files Sample.env sample_listing []) = new ++ []
    /\ List.length new = List.length (removals new)
    /\ match snd (Files.delete_all_audio_files Sample.env sample_listing []) with
       | inr reply =>
           removals new
           = map (fun f => (stored f, true)) ["talk.mp3"; "voice.wav"; "memo.m4a"]
           /\ Files.deleted_count reply = 3
           /\ Files.message reply = "Deleted 3 audio files"
       | inl e =>
           exists done failed rest detail,
             ["talk.mp3"; "voice.wav"; "memo.m4a"] = done ++ failed :: rest
             /\ removals new
                = map (fun f => (stored f, true)) done ++ [(stored failed, false)]
             /\ e = HTTPException 500 detail
       end.
Proof.
  apply (delete_all_audio_files_run Sample.env sample_listing []
           ["talk.mp3"; "notes.txt"; "voice.wav"; "tmp0001.pdf"; "memo.m4a"]);
    reflexivity.
Defined.

Example delete_all_audio_files_sample :
  Files.delete_all_audio_files Sample.env sample_listing []
  = ([EvUnlink "outputs/memo.m4a" true; EvUnlink "outputs/voice.wav" true;
      EvUnlink "outputs/talk.mp3" true],
     inr {| Files.message := "Deleted 3 audio files"; Files.deleted_count := 3 |}).
Proof. reflexivity. Qed.

Section Listing.

Variable env : Env.
Variable getsize : history -> string -> exn + Z.
Variable F : Type.
Variable round_mb : Z -> F.

(** The loop of the listing: it reads sizes and changes nothing. *)
Lemma list_entries_run (h : history) (names : list string) :
  forall files,
    fst (for_each names (Files.list_entry getsize F round_mb) files h) = h
    /\ match snd (for_each names (Files.list_entry getsize F round_mb) files h) with
       | inr files' =>
           exists added,
             files' = files ++ added
             /\ map Files.file_name added = filter Files.is_audio_name names
             /\ Forall (fun f => getsize h (stored (Files.file_name f)) = inr (Files.size f)
                                 /\ Files.size_mb f = round_mb (Files.size f)) added
       | inl e =>
           exists name,
             In name (filter Files.is_audio_name names)
             /\ getsize h (stored name) = inl e
       end.
Proof.
  induction names as [|name names IH]; intros files.
  - cbn. split; [reflexivity|]. exists []. rewrite app_nil_r. repeat split. constructor.
  - cbn [for_each filter]. unfold bind at 1 2, Files.list_entry.
    destruct (Files.is_audio_name name) eqn:Haudio.
    + unfold bind, ret. fold (stored name).
      destruct (getsize h (stored name)) as [e|file_size] eqn:Hsize.
      * cbn. split; [reflexivity|]. exists name. split; [left; reflexivity | exact Hsize].
      * specialize (IH (files ++ [{| Files.file_name := name; Files.size := file_size;
                                     Files.size_mb := round_mb file_size |}])).
        destruct IH as [Hh IH]. split; [exact Hh|].
        destruct (snd (for_each names _ _ h)) as [e|files'].
        -- destruct IH as (other & Hin & Hfail). exists other.
           split; [right; exact Hin | exact Hfail].
        -- destruct IH as (added & -> & Hnames & Hsizes).
           eexists (_ :: added). rewrite <- app_assoc. split; [reflexivity|].
           cbn [map Files.file_name]. rewrite Hnames. split; [reflexivity|].
           constructor; [|exact Hsizes]. cbn. split; [exact Hsize | reflexivity].
    + unfold ret at 1 2. apply IH.
Qed.

End Listing.

(** X16.  The listing touches nothing.  Without the output directory it
    is empty.  Otherwise it shows exactly the listed names that end in
    [.mp3], [.wav] or [.m4a], in the order of the directory, each with its
    size, and [total_files] is their number; if the size of one of them
    cannot be read, the whole listing fails with status 500. *)
Theorem list_audio_files_run (env : Env)
    (listdir : history -> string -> exn + list string)
    (getsize : history -> string -> exn + Z)
    (F : Type) (round_mb : Z -> F) (h : history) :
  let run := Files.list_audio_files env listdir getsize F round_mb h in
  fst run = h
  /\ (path_exists env h Api.OUTPUT_DIR = false ->
      snd run = inr {| Files.audio_files := []; Files.total_files := 0 |})
  /\ (forall names,
        path_exists env h Api.OUTPUT_DIR = true ->
        listdir h Api.OUTPUT_DIR = inr names ->
        match snd run with
        | inr listing =>
            map Files.file_name (Files.audio_files listing)
            = filter Files.is_audio_name names
            /\ Files.total_files listing
               = List.length (filter Files.is_audio_name names)
            /\ Forall (fun f =>
                         getsize h (stored (Files.file_name f)) = inr (Files.size f)
                         /\ Files.size_mb f = round_mb (Files.size f))
                      (Files.audio_files listing)
        | inl e =>
            exists name detail,
              In name (filter Files.is_audio_name names)
              /\ succeeded (getsize h (stored name)) = false
              /\ e = HTTPException 500 detail
        end).
Proof.
  intros run. subst run.
  unfold Files.list_audio_files, try_except, bind, Files.exists_, raise, ret.
  destruct (path_exists env h Api.OUTPUT_DIR) eqn:Hdir.
  - destruct (listdir h Api.OUTPUT_DIR) as [e|names] eqn:Hnames.
    + split; [reflexivity|]. split; [discriminate|]. intros names _ [=].
    + destruct (list_entries_run getsize F round_mb h names []) as [Hh Hrun].
      destruct (for_each names (Files.list_entry getsize F round_mb) [] h)
        as [h1 [e|files]]; cbn [fst snd] in *; subst h1.
      * split; [reflexivity|]. split; [discriminate|].
        intros names' _ [= <-]. destruct Hrun as (name & Hin & Hfail).
        exists name. eexists. rewrite Hfail. repeat split. exact Hin.
      * split; [reflexivity|]. split; [discriminate|].
        intros names' _ [= <-]. destruct Hrun as (added & -> & Hnames' & Hsizes).
        cbn [Files.audio_files Files.total_files app].
        rewrite <- Hnames', length_map. repeat split. exact Hsizes.
  - split; [reflexivity|]. split; [reflexivity|]. intros names [=].
Qed.

Lemma list_audio_files_run_witness :
  match snd (Files.list_audio_files Sample.env sample_listing sample_sizes Z
               (fun bytes => (bytes / 1048576)%Z) []) with
  | inr listing =>
      map Files.file_name (Files.audio_files listing)
      = ["talk.mp3"; "voice.wav"; "memo.m4a"]
      /\ Files.total_files listing = 3
      /\ Forall (fun f =>
                   sample_sizes [] (stored (Files.file_name f)) = inr (Files.size f)
                   /\ Files.size_mb f = (Files.size f / 1048576)%Z)
                (Files.audio_files listing)
  | inl e =>
      exists name detail,
        In name ["talk.mp3"; "voice.wav"; "memo.m4a"]
        /\ succeeded (sample_sizes [] (stored name)) = false
        /\ e = HTTPException 500 detail
  end.
Proof.
  apply (proj2 (proj2 (list_audio_files_run Sample.env sample_listing sample_sizes Z
                         (fun bytes => (bytes / 1048576)%Z) []))
           ["talk.mp3"; "notes.txt"; "voice.wav"; "tmp0001.pdf"; "memo.m4a"]);
    reflexivity.
Defined.

(** X17.  The removal of one file does not look at the extension.  A name
    that is no audio name is never shown by the listing and never removed
    by the bulk removal, yet [delete_audio_file] removes the file of that
    name when it exists (the stored copy of an upload, say) and reports the
    deletion; when it does not exist, the answer is status 404 and nothing
    is touched. *)
Theorem delete_audio_file_any_name (env : Env)
    (listdir : history -> string -> exn + list string)
    (filename : string) (h : history) :
  Files.is_audio_name filename = false ->
  (exists new,
     fst (Files.delete_all_audio_files env listdir h) = new ++ h
     /\ ~ In (stored filename) (map fst (removals new)))
  /\ (path_exists env h (stored filename) = true ->
      unlink env h (stored filename) = inr tt ->
      Files.delete_audio_file env filename h
      = (EvUnlink (stored filename) true :: h,
         inr ("File " ++ filename ++ " deleted successfully")%string))
  /\ (path_exists env h (stored filename) = false ->
      Files.delete_audio_file env filename h
      = (h, inl (HTTPException 404 "File not found"))).
Proof.
  intros Hother. split; [|split].
  - unfold Files.delete_all_audio_files, try_except, bind, Files.exists_, raise, ret.
    destruct (path_exists env h Api.OUTPUT_DIR).
    2: { exists []. split; [reflexivity | intros []]. }
    destruct (listdir h Api.OUTPUT_DIR) as [e|names].
    { exists []. split; [reflexivity | intros []]. }
    destruct (delete_entries_run env names 0 h) as (new & Hnew & _ & Hrun).
    exists new.
    assert (Hnone : forall fs,
               (forall f, In f fs -> In f (filter Files.is_audio_name names)) ->
               ~ In (stored filename) (map stored fs)).
    { intros fs Hfs Hin. apply in_map_iff in Hin. destruct Hin as (f & Hf & Hin).
      apply stored_injective in Hf. subst f. apply Hfs in Hin.
      apply filter_In in Hin. destruct Hin as [_ Hin]. congruence. }
    destruct (for_each names (Files.delete_entry env) 0 h) as [h1 [e|count]];
      cbn [fst snd] in *; (split; [exact Hnew|]).
    + destruct Hrun as (done & failed & rest & Hfilter & ->).
      rewrite map_app, map_map. cbn [map fst].
      change [stored failed] with (map stored [failed]). rewrite <- map_app.
      apply Hnone. intros f Hf. rewrite Hfilter.
      apply in_app_iff in Hf. apply in_app_iff.
      destruct Hf as [Hf|[<-|[]]]; [left; exact Hf | right; left; reflexivity].
    + destruct Hrun as [-> _]. rewrite map_map. cbn [fst].
      apply Hnone. intros f Hf. exact Hf.
  - intros Hexists Hunlink.
    unfold Files.delete_audio_file, bind, Files.exists_, try_except, Files.remove, call.
    fold (stored filename). rewrite Hexists. cbn [negb]. rewrite Hunlink. reflexivity.
  - intros Habsent.
    unfold Files.delete_audio_file, bind, Files.exists_. fold (stored filename).
    rewrite Habsent. reflexivity.
Qed.

Lemma delete_audio_file_any_name_witness :
  Files.delete_audio_file Sample.env "tmp0001.pdf" []
  = ([EvUnlink (stored "tmp0001.pdf") true],
     inr "File tmp0001.pdf deleted successfully").
Proof.
  apply (proj1 (proj2 (delete_audio_file_any_name Sample.env sample_listing
                         "tmp0001.pdf" [] eq_refl)));
    reflexivity.
Defined.

(** *** The form interface *)

Lemma parse_list_entries (s : string) :
  Forall (fun entry => entry <> EmptyString /\ PyStr.strip entry = entry)
         (Gradio.parse_list s).
Proof.
  unfold Gradio.parse_list. destruct (String.eqb s EmptyString); [constructor|].
  apply Forall_forall. intros entry Hentry.
  apply in_map_iff in Hentry. destruct Hentry as (d & <- & Hd).
  apply filter_In in Hd. destruct Hd as [_ Hd].
  apply negb_true_iff, String.eqb_neq in Hd.
  split; [exact Hd | apply strip_idempotent].
Qed.

Lemma parse_list_blank (s : string) :
  Forall (fun d => PyStr.strip d = EmptyString) (PyStr.split s ",") ->
  Gradio.parse_list s = [].
Proof.
  intros Hblank. unfold Gradio.parse_list.
  destruct (String.eqb s EmptyString); [reflexivity|].
  induction Hblank as [|d rest Hd _ IH]; [reflexivity|].
  cbn [filter]. rewrite Hd. exact IH.
Qed.

(** X18.  The form keeps of each comma-separated field only the entries
    that are not blank, trimmed: no empty string and no entry with outer
    white space reaches [run_system], and a field of nothing but commas and
    blanks counts as no entry at all. *)
Theorem gradio_parse_list_clean (s : string) :
  Forall (fun entry => entry <> EmptyString /\ PyStr.strip entry = entry)
         (Gradio.parse_list s)
  /\ (Forall (fun d => PyStr.strip d = EmptyString) (PyStr.split s ",") ->
      Gradio.parse_list s = []).
Proof. split; [apply parse_list_entries | apply parse_list_blank]. Qed.

Lemma gradio_parse_list_clean_witness : Gradio.parse_list " , ,  " = [].
Proof.
  apply (proj2 (gradio_parse_list_clean " , ,  ")).
  repeat constructor.
Defined.

Example gradio_parse_list_sample :
  Gradio.parse_list " 10.1/a ,, 10.1/b , " = ["10.1/a"; "10.1/b"].
Proof. reflexivity. Qed.



(** The handler on the sample world: one DOI, found. *)
Example gradio_handler_sample :
  snd (Gradio.process_papers_and_create_podcast Sample.env None
         "10.1/known" "" "attention, journal" [])
  = inr ("", Some "outputs/final_synthesis.mp3",
         (Gradio.citations_header
          ++ "#### Paper 1" ++ PyStr.nl
          ++ "**Source:** 10.1/known" ++ PyStr.nl
          ++ "**Topic:** attention" ++ PyStr.nl
          ++ "**Audio File:** outputs/10.1_known.mp3" ++ PyStr.blank_line)%string).
Proof. vm_compute. reflexivity. Qed.

(** *** The command line *)

Lemma split_from_not_empty (sep s : string) :
  forall skip cur, PyStr.split_from sep s skip cur <> [].
Proof.
  induction s as [|c s IH]; intros skip cur; cbn [PyStr.split_from]; [discriminate|].
  destruct skip; [|apply IH].
  destruct (String.prefix sep (String c s)); [discriminate | apply IH].
Qed.

(** The entries of a line: at least one, each trimmed. *)
Lemma entries_facts (s : string) :
  Cli.entries s <> [] /\ Forall (fun entry => PyStr.strip entry = entry) (Cli.entries s).
Proof.
  unfold Cli.entries. split.
  - pose proof (split_from_not_empty "," s 0 EmptyString) as Hsplit.
    unfold PyStr.split. destruct (PyStr.split_from "," s 0 EmptyString);
      [contradiction | discriminate].
  - apply Forall_forall. intros entry Hentry.
    apply in_map_iff in Hentry. destruct Hentry as (d & <- & _).
    apply strip_idempotent.
Qed.

Lemma ask_entries_facts (digit choice : string) (answers rest : list string)
    (asked : list string) :
  Cli.ask_entries digit choice answers = inr (asked, rest) ->
  (if PyStr.contains choice digit then asked <> [] else asked = [])
  /\ Forall (fun entry => PyStr.strip entry = entry) asked.
Proof.
  unfold Cli.ask_entries. destruct (PyStr.contains choice digit).
  - destruct answers as [|line answers]; cbn; [discriminate|].
    intros [= <- <-]. apply entries_facts.
  - intros [= <- <-]. split; [reflexivity | constructor].
Qed.

(** X20.  What the menu hands to [run_system].  A chosen kind of input
    always yields at least one locator, the empty string when the line
    typed is blank; a kind not chosen yields none; every locator and topic
    is trimmed; and the topics are none exactly when the topic line is
    blank.  Nothing is handed over when the choice holds the digit 4. *)
Theorem cli_arguments_shape (choice topic_line : string) (more : list string)
    (args : Cli.Arguments) :
  Cli.arguments (choice :: topic_line :: more) = inr (Some args) ->
  PyStr.contains choice "4" = false
  /\ (if PyStr.contains choice "1" then Cli.pdf_paths args <> []
      else Cli.pdf_paths args = [])
  /\ (if PyStr.contains choice "2" then Cli.doi_list args <> []
      else Cli.doi_list args = [])
  /\ (if PyStr.contains choice "3" then Cli.url_list args <> []
      else Cli.url_list args = [])
  /\ (Cli.topics args = [] <-> PyStr.strip topic_line = EmptyString)
  /\ Forall (fun entry => PyStr.strip entry = entry)
            (Cli.pdf_paths args ++ Cli.doi_list args ++ Cli.url_list args
             ++ Cli.topics args).
Proof.
  unfold Cli.arguments. cbn [Cli.input].
  destruct (Cli.ask_entries "1" choice more) as [e|[pdfs more1]] eqn:H1; [discriminate|].
  destruct (Cli.ask_entries "2" choice more1) as [e|[dois more2]] eqn:H2; [discriminate|].
  destruct (Cli.ask_entries "3" choice more2) as [e|[urls more3]] eqn:H3; [discriminate|].
  destruct (PyStr.contains choice "4"); [discriminate|].
  intros [= <-]. cbn [Cli.pdf_paths Cli.doi_list Cli.url_list Cli.topics].
  apply ask_entries_facts in H1, H2, H3.
  destruct H1 as [H1 T1], H2 as [H2 T2], H3 as [H3 T3].
  repeat split; try assumption.
  - destruct (String.eqb_spec (PyStr.strip topic_line) EmptyString) as [Hblank|Hline];
      [intros _; exact Hblank|].
    intros Hnone. destruct (entries_facts (PyStr.strip topic_line)) as [Hsome _].
    contradiction.
  - intros Hblank. rewrite Hblank. reflexivity.
  - rewrite !Forall_app. repeat split; try assumption.
    destruct (String.eqb (PyStr.strip topic_line) EmptyString); [constructor|].
    apply entries_facts.
Qed.

Lemma cli_arguments_shape_witness :
  PyStr.contains "1,3" "4" = false
  /\ (if PyStr.contains "1,3" "1" then [""] <> [] else [""] = [])
  /\ (if PyStr.contains "1,3" "2" then ([] : list string) <> []
      else ([] : list string) = [])
  /\ (if PyStr.contains "1,3" "3" then ["https://example.org/a"; "b"] <> []
      else ["https://example.org/a"; "b"] = [])
  /\ (["ml"; ""] = [] <-> PyStr.strip " ml, " = EmptyString)
  /\ Forall (fun entry => PyStr.strip entry = entry)
            ([""] ++ [] ++ ["https://example.org/a"; "b"] ++ ["ml"; ""]).
Proof.
  apply (cli_arguments_shape "1,3" " ml, " ["   "; " https://example.org/a , b "]
           {| Cli.pdf_paths := [""]; Cli.topics := ["ml"; ""];
              Cli.doi_list := []; Cli.url_list := ["https://example.org/a"; "b"] |}).
  reflexivity.
Defined.

(** X21.  A choice that holds the digit 4 leaves without running the
    pipeline, but only after the prompts of the other digits it holds:
    nothing outside is called, and the outcome is the exit, or the end of
    the input when a prompt found no line. *)
Theorem cli_exit_runs_nothing (env : Env) (choice : string) (more : list string)
    (h : history) :
  PyStr.contains choice "4" = true ->
  Cli.main env (choice :: more) h = (h, inr None)
  \/ Cli.main env (choice :: more) h = (h, inl (LibraryError "EOFError")).
Proof.
  intros Hexit. unfold Cli.main, Cli.arguments. cbn [Cli.input].
  destruct more as [|topic_line more]; [right; reflexivity|].
  unfold Cli.ask_entries.
  destruct (PyStr.contains choice "1");
    [destruct more as [|l1 more]; [right; reflexivity|]|];
    cbn [Cli.input];
    (destruct (PyStr.contains choice "2");
     [destruct more as [|l2 more]; [right; reflexivity|]|]);
    cbn [Cli.input];
    (destruct (PyStr.contains choice "3");
     [destruct more as [|l3 more]; [right; reflexivity|]|]);
    cbn [Cli.input]; rewrite Hexit; left; reflexivity.
Qed.

Lemma cli_exit_runs_nothing_witness :
  Cli.main Sample.env ["1,4"; "ml"; "a.pdf"] [] = ([], inr None)
  \/ Cli.main Sample.env ["1,4"; "ml"; "a.pdf"] []
     = ([], inl (LibraryError "EOFError")).
Proof.
  apply (cli_exit_runs_nothing Sample.env "1,4" ["ml"; "a.pdf"] []). reflexivity.
Defined.

(** An empty label among the topics labels every citation of a run. *)
Lemma run_system_empty_label (env : Env)
    (pdf_files topic_list doi_list urls : list string)
    (h h' : history) (result : Main.PipelineResult) :
  In EmptyString topic_list ->
  Main.run_system env pdf_files topic_list doi_list urls h = (h', inr result) ->
  Forall (fun c => Main.topic c = EmptyString) (Main.citations result).
Proof.
  intros Hlabel Hrun. apply run_system_shape in Hrun.
  destruct Hrun as (new & statuses & from_pdfs & from_dois & from_urls
                    & _ & _ & _ & _ & _ & _ & -> & _).
  rewrite !Forall_app. repeat split; apply cited_well_formed;
    intros src summary; apply classify_topic_empty_label, Hlabel.
Qed.

(** X22.  On the command line, an empty entry in the topic line (two
    commas in a row, or a comma at the end) is kept as a topic, and then
    every citation of the run carries the empty topic, whatever the papers
    are about. *)
Theorem cli_empty_topic_entry (env : Env) (choice topic_line : string)
    (more : list string) (h h' : history) (result : Main.PipelineResult) :
  PyStr.strip topic_line <> EmptyString ->
  In EmptyString (Cli.entries (PyStr.strip topic_line)) ->
  Cli.main env (choice :: topic_line :: more) h = (h', inr (Some result)) ->
  Forall (fun c => Main.topic c = EmptyString) (Main.citations result).
Proof.
  intros Hline Hentry. unfold Cli.main.
  destruct (Cli.arguments (choice :: topic_line :: more)) as [e|[args|]] eqn:Hargs;
    [discriminate | | discriminate].
  unfold bind.
  destruct (Main.run_system env (Cli.pdf_paths args) (Cli.topics args)
              (Cli.doi_list args) (Cli.url_list args) h)
    as [h1 [e|result1]] eqn:Hrun; [discriminate|].
  unfold ret. intros [= <- <-].
  apply (run_system_empty_label _ _ _ _ _ _ _ _) with (2 := Hrun).
  revert Hargs. unfold Cli.arguments. cbn [Cli.input].
  destruct (Cli.ask_entries "1" choice more) as [e|[pdfs more1]]; [discriminate|].
  destruct (Cli.ask_entries "2" choice more1) as [e|[dois more2]]; [discriminate|].
  destruct (Cli.ask_entries "3" choice more2) as [e|[urls more3]]; [discriminate|].
  destruct (PyStr.contains choice "4"); [discriminate|].
  intros [= <-]. cbn [Cli.topics].
  apply String.eqb_neq in Hline. rewrite Hline. exact Hentry.
Qed.

Lemma cli_empty_topic_entry_witness :
  Forall (fun c => Main.topic c = EmptyString)
         (Main.citations
            (Sample.result_of
               (Main.run_system Sample.env [] ["physics"; ""; "biology"]
                  ["10.1/known"] [] []))).
Proof.
  apply (cli_empty_topic_entry Sample.env "2" "physics,,biology" ["10.1/known"] []
           (fst (Main.run_system Sample.env [] ["physics"; ""; "biology"]
                   ["10.1/known"] [] []))).
  - discriminate.
  - right. left. reflexivity.
  - vm_compute. reflexivity.
Defined.
